(** * SEO article generator: prompt compiler, generate route, article routes
    and the history filter, embedded from the TypeScript sources.

  Sources embedded here:
  - [lib/prompt-builder]            (buildArticlePrompt)
  - [app/api/generate/route.ts]     (POST, getMaxTokens)
  - [app/api/articles/[id]/route]   (GET, DELETE)
  - [components/article-history]    (filter and sort of ArticleHistory)
  - [db/schema/articles]            (Article, ArticleSettings)            *)

From stdpp Require Import base option list strings gmap fin_maps sorting.
From Stdlib Require Import ZArith Lia.

Local Open Scope string_scope.
Local Open Scope Z_scope.

(* ===================================================================== *)
(** ** JavaScript values that the code meets                              *)
(* ===================================================================== *)

Module Js.

(** The double quote and the line feed, which the template literals of
    the source contain. *)
Definition dq : string := String (Ascii.ascii_of_nat 34) EmptyString.
Definition nl : string := String (Ascii.ascii_of_nat 10) EmptyString.

(** Every object literal of the source has [Object.prototype] as its
    prototype, so [obj[key]] finds, besides the literal's own keys, the
    properties every object inherits (ECMAScript 20.1.3 and B.2.2). *)
Definition objectPrototypeKeys : list string :=
  [ "constructor"; "hasOwnProperty"; "isPrototypeOf"; "propertyIsEnumerable";
    "toLocaleString"; "toString"; "valueOf"; "__proto__";
    "__defineGetter__"; "__defineSetter__";
    "__lookupGetter__"; "__lookupSetter__" ].

(** The result of a property read that is not [undefined]: a value the
    literal holds, or the built-in inherited under name [k]. *)
Inductive jsval (A : Type) : Type :=
| Val (a : A)
| Builtin (k : string).
Arguments Val {A} a.
Arguments Builtin {A} k.

(** [obj[key]]; [None] is [undefined]. *)
Definition get {A : Type} (obj : gmap string A) (key : string)
  : option (jsval A) :=
  match obj !! key with
  | Some a => Some (Val a)
  | None =>
      if bool_decide (key ∈ objectPrototypeKeys)
      then Some (Builtin key) else None
  end.

(** [String(v)] of an inherited built-in, as V8 prints it:
    [__proto__] is the prototype object, [constructor] is the function
    [Object], every other one a native function of its own name. *)
Definition builtinToString (k : string) : string :=
  if bool_decide (k = "__proto__") then "[object Object]"
  else if bool_decide (k = "constructor")
       then "function Object() { [native code] }"
       else "function " +:+ k +:+ "() { [native code] }".

(** Truthiness of the two primitive types the tables hold. *)
Definition truthyString (s : string) : bool := negb (bool_decide (s = EmptyString)).
Definition truthyNumber (n : Z) : bool := negb (bool_decide (n = 0)).

(** [x || d]: the left operand when it is truthy (every object and
    function is), the right one otherwise. *)
Definition orElse {A : Type} (truthy : A -> bool)
           (x : option (jsval A)) (d : A) : jsval A :=
  match x with
  | Some (Val a) => if truthy a then Val a else Val d
  | Some (Builtin k) => Builtin k
  | None => Val d
  end.

(** A string-valued expression inside a template literal. *)
Definition render (v : jsval string) : string :=
  match v with
  | Val s => s
  | Builtin k => builtinToString k
  end.

(** [s.includes(t)]: [t] occurs in [s] at some position. *)
Fixpoint includes (s t : string) : bool :=
  if String.prefix t s then true
  else match s with
       | EmptyString => false
       | String _ rest => includes rest t
       end.

(** What a [try] block yields: a value, or a thrown exception. *)
Inductive completion (E A : Type) : Type :=
| Return (a : A)
| Throw (e : E).
Arguments Return {E A} a.
Arguments Throw {E A} e.

End Js.

(* ===================================================================== *)
(** ** db/schema/articles                                                 *)
(* ===================================================================== *)

Module Schema.

Record Structure : Type := mkStructure {
  conclusion : bool;
  faqSection : bool;
  tables : bool;
  h3Headings : bool;
  lists : bool;
  italics : bool;
  bold : bool;
  quotes : bool;
  keyTakeaways : bool
}.

Record ArticleSettings : Type := mkSettings {
  articleType : string;
  articleSize : string;
  tone : string;
  pointOfView : string;
  readability : string;
  aiCleaning : string;
  structure : Structure;
  language : string
}.

(** A row of table [articles]; timestamps in milliseconds. *)
Record Article : Type := mkArticle {
  id : string;
  userId : string;
  title : string;
  content : string;
  keywords : string;
  settings : ArticleSettings;
  createdAt : Z;
  updatedAt : Z
}.

End Schema.

(* ===================================================================== *)
(** ** lib/prompt-builder                                                 *)
(* ===================================================================== *)

Module PromptBuilder.
Import Js Schema.

(** [interface PromptData extends ArticleSettings]. *)
Record PromptData : Type := mkPromptData {
  pTitle : string;
  pKeywords : string;
  pSettings : ArticleSettings
}.

Definition languageNames : gmap string string :=
  list_to_map
    [ ("en", "English"); ("es", "Spanish"); ("fr", "French");
      ("de", "German"); ("it", "Italian"); ("pt", "Portuguese");
      ("nl", "Dutch"); ("pl", "Polish"); ("ru", "Russian");
      ("ja", "Japanese"); ("ko", "Korean"); ("zh", "Chinese");
      ("ar", "Arabic"); ("hi", "Hindi"); ("tr", "Turkish");
      ("sv", "Swedish"); ("da", "Danish"); ("no", "Norwegian");
      ("fi", "Finnish") ].

Record SizeReq : Type := mkSizeReq { words : string; h2 : string }.

Definition sizeRequirements : gmap string SizeReq :=
  list_to_map
    [ ("X-Small", mkSizeReq "600-1200" "2-5");
      ("Small", mkSizeReq "1200-2400" "5-8");
      ("Medium", mkSizeReq "2400-3600" "9-12");
      ("Large", mkSizeReq "3600-5200" "13-16") ].

Definition toneInstructions : gmap string string :=
  list_to_map
    [ ("Friendly", "Use a warm, approachable, and conversational tone");
      ("Professional", "Maintain a formal, business-appropriate tone");
      ("Informational", "Focus on providing clear, educational information");
      ("Transactional", "Include clear calls-to-action and conversion-focused language");
      ("Inspirational", "Use motivational and uplifting language");
      ("Neutral", "Maintain an objective and unbiased tone");
      ("Witty", "Include clever humor and wordplay where appropriate");
      ("Casual", "Use informal, relaxed language");
      ("Authoritative", "Demonstrate expertise and confidence");
      ("Encouraging", "Use supportive and motivating language");
      ("Persuasive", "Focus on convincing the reader of your viewpoint");
      ("Poetic", "Use literary and expressive language") ].

(** [q w] is the word [w] between double quotes. *)
Definition q (w : string) : string := dq +:+ w +:+ dq.

Definition povInstructions : gmap string string :=
  list_to_map
    [ ("First person singular",
       "Write from " +:+ q "I" +:+ ", " +:+ q "me" +:+ ", " +:+ q "my"
         +:+ ", " +:+ q "mine" +:+ " perspective");
      ("First person plural",
       "Write from " +:+ q "we" +:+ ", " +:+ q "us" +:+ ", " +:+ q "our"
         +:+ ", " +:+ q "ours" +:+ " perspective");
      ("Second person",
       "Write from " +:+ q "you" +:+ ", " +:+ q "your" +:+ ", "
         +:+ q "yours" +:+ " perspective");
      ("Third person",
       "Write from " +:+ q "he" +:+ ", " +:+ q "she" +:+ ", " +:+ q "it"
         +:+ ", " +:+ q "they" +:+ " perspective") ].

Definition readabilityInstructions : gmap string string :=
  list_to_map
    [ ("5th grade", "Use simple vocabulary and short sentences (11-year-old reading level)");
      ("6th grade", "Use conversational language with moderate complexity");
      ("7th grade", "Use fairly easy to read language with some complexity");
      ("8th & 9th grade", "Use easily understood language with moderate complexity");
      ("10th to 12th grade", "Use fairly difficult language with complex sentences");
      ("College", "Use difficult language with academic vocabulary");
      ("College graduate", "Use very difficult language with sophisticated vocabulary");
      ("Professional", "Use extremely difficult language specific to the industry") ].

Definition cleaningInstructions : gmap string string :=
  list_to_map
    [ ("Basic AI Words Removal",
       "Avoid common AI phrases like " +:+ q "in conclusion" +:+ ", "
         +:+ q "furthermore" +:+ ", " +:+ q "moreover" +:+ ", "
         +:+ q "in addition" +:+ ", etc.");
      ("Extended AI Words Removal",
       "Eliminate all detectable AI patterns and phrases. Write like a human expert would naturally write.") ].

(** [sizeReq.words] and [sizeReq.h2] inside the template: a field of the
    table's record, or [undefined] on an inherited built-in, which the
    template prints as the word undefined. *)
Definition field (f : SizeReq -> string) (sizeReq : jsval SizeReq) : string :=
  match sizeReq with
  | Val r => f r
  | Builtin _ => "undefined"
  end.

(** [structureItems.join(', ')]. *)
Fixpoint join (sep : string) (items : list string) : string :=
  match items with
  | [] => EmptyString
  | [x] => x
  | x :: rest => x +:+ sep +:+ join sep rest
  end.

(** [items.push(x)]. *)
Definition push (items : list string) (x : string) : list string :=
  (items ++ [x])%list.

(** The nine conditional [push] calls, in source order. *)
Definition structureItems (s : Structure) : list string :=
  let items := [] in
  let items := if conclusion s then push items "Conclusion section" else items in
  let items := if faqSection s then push items "FAQ section" else items in
  let items := if tables s then push items "Data tables" else items in
  let items := if h3Headings s then push items "H3 subheadings within sections" else items in
  let items := if lists s then push items "Bulleted or numbered lists" else items in
  let items := if italics s then push items "Italic text for emphasis" else items in
  let items := if bold s then push items "Bold text for emphasis" else items in
  let items := if quotes s then push items "Relevant quotes" else items in
  let items := if keyTakeaways s then push items "Key takeaways section" else items in
  items.

(** The opening template literal (source lines 58-67). *)
Definition header (title keywords targetLanguage : string)
           (sizeReq : jsval SizeReq) : string :=
  "You are an expert SEO content writer. Write a comprehensive, SEO-optimized article in "
    +:+ targetLanguage +:+ " based on the following specifications:" +:+ nl
    +:+ nl
    +:+ "TITLE: " +:+ title +:+ nl
    +:+ "KEYWORDS: " +:+ keywords +:+ nl
    +:+ nl
    +:+ "ARTICLE REQUIREMENTS:" +:+ nl
    +:+ "- Target Language: " +:+ targetLanguage +:+ nl
    +:+ "- Word Count: " +:+ field words sizeReq +:+ " words" +:+ nl
    +:+ "- H2 Headings: " +:+ field h2 sizeReq +:+ " sections" +:+ nl
    +:+ "- Main Keywords: " +:+ keywords.

(** The closing template literal (source lines 150-170). *)
Definition footer (targetLanguage : string) (sizeReq : jsval SizeReq) : string :=
  nl +:+ nl +:+ "CONTENT GUIDELINES:" +:+ nl
    +:+ "1. Create a compelling, SEO-friendly title that includes the main keywords" +:+ nl
    +:+ "2. Write an engaging introduction that hooks the reader and includes the primary keywords" +:+ nl
    +:+ "3. Develop " +:+ field h2 sizeReq +:+ " well-structured H2 sections with relevant content" +:+ nl
    +:+ "4. Naturally incorporate the keywords throughout the content (" +:+ targetLanguage +:+ " language)" +:+ nl
    +:+ "5. Ensure proper heading hierarchy (H1 > H2 > H3)" +:+ nl
    +:+ "6. Include meta descriptions and SEO best practices" +:+ nl
    +:+ "7. Write unique, valuable content that provides real insights" +:+ nl
    +:+ "8. Use proper grammar, spelling, and punctuation in " +:+ targetLanguage +:+ nl
    +:+ "9. Ensure the content flows logically and is easy to read" +:+ nl
    +:+ "10. Include internal/external linking opportunities where relevant" +:+ nl
    +:+ nl
    +:+ "SEO REQUIREMENTS:" +:+ nl
    +:+ "- Keyword density: 1-2% for main keywords" +:+ nl
    +:+ "- Include LSI (Latent Semantic Indexing) keywords naturally" +:+ nl
    +:+ "- Use semantic HTML5 structure" +:+ nl
    +:+ "- Include meta title (50-60 characters) and description (150-160 characters)" +:+ nl
    +:+ "- Ensure mobile readability" +:+ nl
    +:+ "- Include relevant entities and concepts" +:+ nl
    +:+ nl
    +:+ "Please write the complete article now. Start with the title, followed by the meta description, then the full article content. Make sure to follow all the specified requirements and create high-quality, engaging content that ranks well in search engines.".

(** The five conditional clauses and the structure block, each the text
    that one [prompt += ...] statement appends. *)
Definition articleTypeClause (articleType : string) : string :=
  if bool_decide (articleType <> "None")
  then nl +:+ "- Article Type: " +:+ articleType
  else EmptyString.

Definition toneClause (tone : string) : string :=
  if bool_decide (tone <> "None")
  then nl +:+ "- Tone: "
         +:+ render (orElse truthyString (get toneInstructions tone) tone)
  else EmptyString.

Definition pointOfViewClause (pointOfView : string) : string :=
  if bool_decide (pointOfView <> "None")
  then nl +:+ "- Point of View: "
         +:+ render (orElse truthyString (get povInstructions pointOfView) pointOfView)
  else EmptyString.

Definition readabilityClause (readability : string) : string :=
  if bool_decide (readability <> "None")
  then nl +:+ "- Readability Level: "
         +:+ render (orElse truthyString
                       (get readabilityInstructions readability) readability)
  else EmptyString.

Definition aiCleaningClause (aiCleaning : string) : string :=
  if bool_decide (aiCleaning <> "No AI Words Removal")
  then nl +:+ "- Content Style: "
         +:+ render (orElse truthyString
                       (get cleaningInstructions aiCleaning) aiCleaning)
  else EmptyString.

Definition structureHeader : string := nl +:+ nl +:+ "STRUCTURE REQUIREMENTS:".

Definition includeLine (s : Structure) : string :=
  let items := structureItems s in
  if bool_decide (0 < length items)%nat
  then nl +:+ "- Include: " +:+ join ", " items
  else EmptyString.

Inductive exn : Type :=
| TypeError.  (* reading a property of undefined *)

(** [buildArticlePrompt]: the first read of [sizeReq.words] throws when
    the size lookup gave [undefined]; after it nothing can throw. *)
Definition buildArticlePrompt (data : PromptData) : completion exn string :=
  let s := pSettings data in
  let targetLanguage :=
    render (orElse truthyString (get languageNames (language s)) "English") in
  match get sizeRequirements (articleSize s) with
  | None => Throw TypeError
  | Some sizeReq =>
      let prompt := header (pTitle data) (pKeywords data) targetLanguage sizeReq in
      let prompt := prompt +:+ articleTypeClause (articleType s) in
      let prompt := prompt +:+ toneClause (tone s) in
      let prompt := prompt +:+ pointOfViewClause (pointOfView s) in
      let prompt := prompt +:+ readabilityClause (readability s) in
      let prompt := prompt +:+ aiCleaningClause (aiCleaning s) in
      let prompt := prompt +:+ structureHeader in
      let prompt := prompt +:+ includeLine (structure s) in
      let prompt := prompt +:+ footer targetLanguage sizeReq in
      Return prompt
  end.

End PromptBuilder.

(* ===================================================================== *)
(** ** What the route handlers share                                      *)
(* ===================================================================== *)

Module Http.
Import Js Schema.

(** A thrown JavaScript value, as far as the [catch] blocks inspect it:
    a [ZodError] with its issues (path, message), or any other value, of
    which the handler reads property [error] (and then [error.type]) and
    property [code]. [None] is an absent property. *)
Inductive thrown : Type :=
| ZodError (issues : list (string * string))
| Other (errorProp : option (option string)) (codeProp : option string).

(** What a handler passes to [NextResponse.json]. *)
Inductive body : Type :=
| Generated (articleId title content : string) (settings : ArticleSettings)
| ArticleJson (a : Article)
| SuccessTrue
| Error (msg : string)
| ErrorDetails (msg : string) (details : list (string * string)).

Record Response : Type := mkResponse { status : Z; payload : body }.

(** [NextResponse.json(b)] and [NextResponse.json(b, { status })]. *)
Definition json (b : body) : Response := mkResponse 200 b.
Definition jsonStatus (b : body) (st : Z) : Response := mkResponse st b.

(** Table [articles]: rows by primary key [id]. *)
Abbreviation Db := (gmap string Article).

(** [session?.user?.id] is truthy. *)
Definition sessionUser (session : option string) : option string :=
  match session with
  | Some uid => if truthyString uid then Some uid else None
  | None => None
  end.

(** Sequencing inside a [try] block. *)
Definition bind {E A B : Type} (c : completion E A) (k : A -> completion E B)
  : completion E B :=
  match c with
  | Return a => k a
  | Throw e => Throw e
  end.

End Http.

Notation "x <- c ;; k" := (Http.bind c (fun x => k))
  (at level 100, c at next level, right associativity).

(* ===================================================================== *)
(** ** app/api/generate/route.ts                                          *)
(* ===================================================================== *)

Module GenerateRoute.
Import Js Schema Http PromptBuilder.

Definition tokenLimits : gmap string Z :=
  list_to_map
    [ ("X-Small", 2000); ("Small", 4000); ("Medium", 6000); ("Large", 8000) ].

(** [return tokenLimits[articleSize] || 4000]. *)
Definition getMaxTokens (articleSize : string) : jsval Z :=
  orElse truthyNumber (get tokenLimits articleSize) 4000.

(** The [z.enum] lists of [generateRequestSchema]. *)
Definition articleTypes : list string :=
  [ "None"; "How-to guide"; "Listicle"; "Product review"; "News";
    "Comparison"; "Case study"; "Opinion piece"; "Tutorial"; "Roundup post";
    "Q&A page" ].
Definition articleSizes : list string := [ "X-Small"; "Small"; "Medium"; "Large" ].
Definition tones : list string :=
  [ "None"; "Friendly"; "Professional"; "Informational"; "Transactional";
    "Inspirational"; "Neutral"; "Witty"; "Casual"; "Authoritative";
    "Encouraging"; "Persuasive"; "Poetic" ].
Definition pointsOfView : list string :=
  [ "None"; "First person singular"; "First person plural"; "Second person";
    "Third person" ].
Definition readabilities : list string :=
  [ "None"; "5th grade"; "6th grade"; "7th grade"; "8th & 9th grade";
    "10th to 12th grade"; "College"; "College graduate"; "Professional" ].
Definition aiCleanings : list string :=
  [ "No AI Words Removal"; "Basic AI Words Removal"; "Extended AI Words Removal" ].

(** The checks of [generateRequestSchema] on a body of the right shape. *)
Definition schemaOk (d : PromptData) : bool :=
  let s := pSettings d in
  bool_decide (1 <= String.length (pTitle d) <= 200)%nat
  && bool_decide (1 <= String.length (pKeywords d) <= 500)%nat
  && bool_decide (articleType s ∈ articleTypes)
  && bool_decide (articleSize s ∈ articleSizes)
  && bool_decide (tone s ∈ tones)
  && bool_decide (pointOfView s ∈ pointsOfView)
  && bool_decide (readability s ∈ readabilities)
  && bool_decide (aiCleaning s ∈ aiCleanings)
  && bool_decide (1 <= String.length (language s))%nat.

(** [generateRequestSchema.parse(body)]; the issues of a [ZodError] are
    not modelled field by field. *)
Definition parse (issues : list (string * string)) (d : PromptData)
  : completion thrown PromptData :=
  if schemaOk d then Return d else Throw (ZodError issues).

(** What the collaborators of [POST] do during one request. *)
Record Run : Type := mkRun {
  getSession : completion thrown (option string);
  requestJson : completion thrown PromptData;
  zodIssues : list (string * string);
  newOpenAI : completion thrown unit;
  OPENAI_API_KEY : option string;
  (** [openai.chat.completions.create] on the prompt and [max_tokens],
      followed by [choices[0]?.message?.content]. *)
  create : string -> jsval Z -> completion thrown (option string);
  generateId : string;
  now1 : Z;
  now2 : Z;
  (** The storage engine refuses the statement for a reason of its own. *)
  dbFault : option thrown;
  (** What the database driver throws when the primary key is taken;
      which properties that value has is the driver's affair. *)
  uniqueViolation : thrown
}.

(** [db.insert(articles).values(row)]: the primary key is unique, and an
    insertion under a taken key throws the driver's [violation]. *)
Definition dbInsert (fault : option thrown) (violation : thrown)
           (db : Db) (row : Article)
  : completion thrown Db :=
  match fault with
  | Some e => Throw e
  | None =>
      match db !! id row with
      | Some _ => Throw violation
      | None => Return (<[id row := row]> db)
      end
  end.

(** A [TypeError] has neither an [error] nor a [code] property. *)
Definition ofExn {A : Type} (c : completion exn A) : completion thrown A :=
  match c with
  | Return a => Return a
  | Throw TypeError => Throw (Other None None)
  end.

(** [!generatedContent] is false. *)
Definition contentOf (c : option string) : option string :=
  match c with
  | Some text => if truthyString text then Some text else None
  | None => None
  end.

(** The [try] block of [POST]. *)
Definition tryPOST (r : Run) (db : Db) : completion thrown (Response * Db) :=
  session <- getSession r ;;
  match sessionUser session with
  | None =>
      Return (jsonStatus (Error "Unauthorized. Please sign in to generate articles.") 401, db)
  | Some uid =>
      raw <- requestJson r ;;
      validatedData <- parse (zodIssues r) raw ;;
      _ <- newOpenAI r ;;
      match OPENAI_API_KEY r with
      | None =>
          Return (jsonStatus (Error "AI service configuration error. Please contact support.") 500, db)
      | Some key =>
        if negb (truthyString key)
        then Return (jsonStatus (Error "AI service configuration error. Please contact support.") 500, db)
        else
          prompt <- ofExn (buildArticlePrompt validatedData) ;;
          completionContent <-
            create r prompt (getMaxTokens (articleSize (pSettings validatedData))) ;;
          match contentOf completionContent with
          | None =>
              Return (jsonStatus (Error "Failed to generate article content. Please try again.") 500, db)
          | Some generatedContent =>
              let articleId := generateId r in
              let articleData :=
                mkArticle articleId uid (pTitle validatedData) generatedContent
                          (pKeywords validatedData) (pSettings validatedData)
                          (now1 r) (now2 r) in
              db' <- dbInsert (dbFault r) (uniqueViolation r) db articleData ;;
              Return (json (Generated articleId (pTitle validatedData)
                                      generatedContent (settings articleData)), db')
          end
      end
  end.

(** The [catch] block of [POST]. *)
Definition catchPOST (e : thrown) : Response :=
  match e with
  | ZodError issues => jsonStatus (ErrorDetails "Invalid request data" issues) 400
  | Other errorProp codeProp =>
      if bool_decide (errorProp = Some (Some "insufficient_quota"))
      then jsonStatus (Error "AI service temporarily unavailable. Please try again later.") 503
      else if bool_decide (errorProp = Some (Some "invalid_request_error"))
      then jsonStatus (Error "Invalid AI service request. Please try again.") 400
      else if bool_decide (codeProp = Some "23505")
      then jsonStatus (Error "Duplicate article detected.") 409
      else jsonStatus (Error "Failed to generate article. Please try again.") 500
  end.

(** [POST]: the response and the table after the request. A statement
    that throws leaves the table as it was. *)
Definition POST (r : Run) (db : Db) : Response * Db :=
  match tryPOST r db with
  | Return out => out
  | Throw e => (catchPOST e, db)
  end.

(** The caller is told the article was generated. *)
Definition isSuccess (resp : Response) : Prop :=
  exists articleId title content st, resp = json (Generated articleId title content st).

End GenerateRoute.

(* ===================================================================== *)
(** ** app/api/articles/[id]/route.ts                                     *)
(* ===================================================================== *)

Module ArticleRoute.
Import Js Schema Http.

(** What the collaborators of [GET] and [DELETE] do during one request. *)
Record Run : Type := mkRun {
  getSession : completion thrown (option string);
  dbFault : option thrown
}.

(** [db.select().from(articles).where(eq(articles.id, articleId)).limit(1)]. *)
Definition dbSelectById (fault : option thrown) (db : Db) (articleId : string)
  : completion thrown (list Article) :=
  match fault with
  | Some e => Throw e
  | None =>
      match db !! articleId with
      | Some row => Return [row]
      | None => Return []
      end
  end.

(** [db.delete(articles).where(eq(articles.id, articleId)).returning({ id })]:
    the ids of the deleted rows and the table without them. *)
Definition dbDeleteById (fault : option thrown) (db : Db) (articleId : string)
  : completion thrown (list string * Db) :=
  match fault with
  | Some e => Throw e
  | None =>
      match db !! articleId with
      | Some row => Return ([id row], delete articleId db)
      | None => Return ([], db)
      end
  end.

Definition tryGET (r : Run) (articleId : string) (db : Db)
  : completion thrown Response :=
  session <- getSession r ;;
  match sessionUser session with
  | None => Return (jsonStatus (Error "Unauthorized") 401)
  | Some uid =>
      if negb (truthyString articleId)
      then Return (jsonStatus (Error "Article ID is required") 400)
      else
        article <- dbSelectById (dbFault r) db articleId ;;
        match article with
        | [] =>
            Return (jsonStatus
                      (Error "Article not found or you don't have permission to access it") 404)
        | first :: _ => Return (json (ArticleJson first))
        end
  end.

Definition GET (r : Run) (articleId : string) (db : Db) : Response :=
  match tryGET r articleId db with
  | Return resp => resp
  | Throw _ => jsonStatus (Error "Failed to fetch article") 500
  end.

Definition tryDELETE (r : Run) (articleId : string) (db : Db)
  : completion thrown (Response * Db) :=
  session <- getSession r ;;
  match sessionUser session with
  | None => Return (jsonStatus (Error "Unauthorized") 401, db)
  | Some uid =>
      if negb (truthyString articleId)
      then Return (jsonStatus (Error "Article ID is required") 400, db)
      else
        deleted <- dbDeleteById (dbFault r) db articleId ;;
        let '(deleteResult, db') := deleted in
        if bool_decide (length deleteResult = 0%nat)
        then Return (jsonStatus
                       (Error "Article not found or you don't have permission to delete it") 404,
                     db')
        else Return (json SuccessTrue, db')
  end.

Definition DELETE (r : Run) (articleId : string) (db : Db) : Response * Db :=
  match tryDELETE r articleId db with
  | Return out => out
  | Throw _ => (jsonStatus (Error "Failed to delete article") 500, db)
  end.

(** The store contract of the specification, against which the two
    handlers are compared: the row under [id] when its owner is
    [ownerId]. *)
Definition ownedBy (db : Db) (articleId ownerId : string) : option Article :=
  match db !! articleId with
  | Some row => if bool_decide (userId row = ownerId) then Some row else None
  | None => None
  end.

End ArticleRoute.

(* ===================================================================== *)
(** ** components/article-history: the filter and the sort                *)
(* ===================================================================== *)

Module ArticleHistory.
Import Js Schema.

(** [String.prototype.toLowerCase] on the ASCII range; the handler's
    definitions below take the lowering function as a parameter, and this
    one instantiates it for texts in ASCII. *)
Definition asciiLower (c : Ascii.ascii) : Ascii.ascii :=
  let n := Ascii.nat_of_ascii c in
  if bool_decide (65 <= n <= 90)%nat then Ascii.ascii_of_nat (n + 32) else c.

Fixpoint asciiToLowerCase (s : string) : string :=
  match s with
  | EmptyString => EmptyString
  | String c rest => String (asciiLower c) (asciiToLowerCase rest)
  end.

Inductive SortField : Type := ByCreatedAt | ByTitle | ByArticleSize.
Inductive SortOrder : Type := Asc | Desc.

Definition sizeOrder : gmap string Z :=
  list_to_map [ ("X-Small", 1); ("Small", 2); ("Medium", 3); ("Large", 4) ].

(** [x - y] on two property reads of a number table; [None] is [NaN],
    which is what [undefined] and the inherited built-ins convert to. *)
Definition minus (x y : option (jsval Z)) : option Z :=
  match x, y with
  | Some (Val a), Some (Val b) => Some (a - b)
  | _, _ => None
  end.

(** [Array.prototype.sort(comparefn)]: the sort is stable, and a [NaN]
    from [comparefn] counts as [+0]. [x] goes after [y] only when
    [comparefn(x, y) > 0]. *)
Definition goesAfter {A : Type} (comparefn : A -> A -> option Z) (x y : A) : bool :=
  match comparefn x y with
  | Some v => bool_decide (0 < v)
  | None => false
  end.

Fixpoint insertSorted {A : Type} (comparefn : A -> A -> option Z)
         (x : A) (sorted : list A) : list A :=
  match sorted with
  | [] => [x]
  | y :: rest =>
      if goesAfter comparefn x y
      then y :: insertSorted comparefn x rest
      else x :: y :: rest
  end.

Fixpoint sort {A : Type} (comparefn : A -> A -> option Z) (l : list A) : list A :=
  match l with
  | [] => []
  | x :: rest => insertSorted comparefn x (sort comparefn rest)
  end.

Section Component.

(** [String.prototype.toLowerCase] and [String.prototype.localeCompare]
    belong to the runtime. *)
Variable toLowerCase : string -> string.
Variable localeCompare : string -> string -> Z.

(** The component's state. *)
Variable searchTerm : string.
Variable filterType : string.
Variable sortField : SortField.
Variable sortOrder : SortOrder.

Definition matchesSearch (article : Article) : bool :=
  includes (toLowerCase (title article)) (toLowerCase searchTerm)
  || includes (toLowerCase (keywords article)) (toLowerCase searchTerm).

Definition matchesType (article : Article) : bool :=
  bool_decide (filterType = "all")
  || bool_decide (articleType (settings article) = filterType).

Definition keeps (article : Article) : bool :=
  matchesSearch article && matchesType article.

Definition comparison (a b : Article) : option Z :=
  match sortField with
  | ByCreatedAt => Some (createdAt a - createdAt b)
  | ByTitle => Some (localeCompare (title a) (title b))
  | ByArticleSize =>
      minus (get sizeOrder (articleSize (settings a)))
            (get sizeOrder (articleSize (settings b)))
  end.

Definition comparefn (a b : Article) : option Z :=
  match sortOrder with
  | Asc => comparison a b
  | Desc => Z.opp <$> comparison a b
  end.

Definition filteredArticles (articles : list Article) : list Article :=
  sort comparefn (List.filter keeps articles).

End Component.

End ArticleHistory.

(* ===================================================================== *)
(** ** The wording of the specification and its scenarios                 *)
(* ===================================================================== *)

Module Scenario.
Import Js Schema Http PromptBuilder GenerateRoute.

(** [t] occurs in [s]: the declarative reading of containment. *)
Definition contains (s t : string) : Prop :=
  exists pre post, s = pre +:+ t +:+ post.

(** The flags of the scenarios: none set, and only [lists] and
    [conclusion] set. *)
Definition noStructure : Structure :=
  mkStructure false false false false false false false false false.
Definition listsAndConclusion : Structure :=
  mkStructure true false false false true false false false false.

(** The settings of the coffee scenario; the three fields the scenario
    leaves open are parameters. *)
Definition coffee (pov readab cleaning : string) : PromptData :=
  mkPromptData "Best Coffee" "coffee,brew"
    (mkSettings "Listicle" "Small" "Friendly" pov readab cleaning
                listsAndConclusion "en").

(** A request whose only unusual field is the one under study. *)
Definition plain (size tone lang : string) : PromptData :=
  mkPromptData "Best Coffee" "coffee,brew"
    (mkSettings "None" size tone "None" "None" "No AI Words Removal"
                noStructure lang).

(** The declared order of the flags, as the specification lists it, each
    flag with the label the code gives it; and the labels of the flags
    that are set, in that order, to compare [structureItems] with. *)
Definition declaredOrder : list ((Structure -> bool) * string) :=
  [ (conclusion, "Conclusion section"); (faqSection, "FAQ section");
    (tables, "Data tables"); (h3Headings, "H3 subheadings within sections");
    (lists, "Bulleted or numbered lists"); (italics, "Italic text for emphasis");
    (bold, "Bold text for emphasis"); (quotes, "Relevant quotes");
    (keyTakeaways, "Key takeaways section") ].

Definition expectedItems (st : Structure) : list string :=
  List.map snd (List.filter (fun entry => fst entry st) declaredOrder).

Definition allFalse (st : Structure) : bool :=
  forallb (fun entry => negb (fst entry st)) declaredOrder.

(** The text that precedes the structure block. *)
Definition beforeStructure (d : PromptData) (targetLanguage : string)
           (sizeReq : jsval SizeReq) : string :=
  let s := pSettings d in
  header (pTitle d) (pKeywords d) targetLanguage sizeReq
    +:+ articleTypeClause (articleType s)
    +:+ toneClause (tone s)
    +:+ pointOfViewClause (pointOfView s)
    +:+ readabilityClause (readability s)
    +:+ aiCleaningClause (aiCleaning s).

Definition targetLanguageOf (lang : string) : string :=
  render (orElse truthyString (get languageNames lang) "English").

(** The request [d] with another language code. *)
Definition withLanguage (d : PromptData) (lang : string) : PromptData :=
  let s := pSettings d in
  mkPromptData (pTitle d) (pKeywords d)
    (mkSettings (articleType s) (articleSize s) (tone s) (pointOfView s)
                (readability s) (aiCleaning s) (structure s) lang).

(** A request whose article type, tone, point of view, readability and
    cleaning level are all outside their allowed sets. *)
Definition offList (size lang : string) : PromptData :=
  mkPromptData "Best Coffee" "coffee,brew"
    (mkSettings "Rant" size "Sarcastic" "Fourth person" "PhD" "Everything"
                noStructure lang).

(** The severity order of the sizes in the specification's words:
    X-Small(1) < Small(2) < Medium(3) < Large(4). *)
Definition severity (size : string) : Z :=
  if bool_decide (size = "X-Small") then 1
  else if bool_decide (size = "Small") then 2
  else if bool_decide (size = "Medium") then 3
  else if bool_decide (size = "Large") then 4
  else 0.

(** A request of user u1 for the coffee article, answered by the
    generation service with [answer] and by the storage engine with
    [fault]; on a taken key the driver throws [violation]. *)
Definition coffeeRunWith (answer : option string) (fault : option Http.thrown)
           (violation : Http.thrown) : GenerateRoute.Run :=
  GenerateRoute.mkRun
    (Return (Some "u1"))
    (Return (coffee "None" "None" "No AI Words Removal"))
    []
    (Return tt)
    (Some "sk-test")
    (fun _ _ => Return answer)
    "art-1" 1000 1000
    fault
    violation.

(** The same with a driver that throws the engine's own error object,
    which carries the code. *)
Definition coffeeRun (answer : option string) (fault : option Http.thrown)
  : GenerateRoute.Run :=
  coffeeRunWith answer fault (Other None (Some "23505")).

Definition coffeeRow (text : string) : Article :=
  mkArticle "art-1" "u1" "Best Coffee" text "coffee,brew"
    (pSettings (coffee "None" "None" "No AI Words Removal")) 1000 1000.

(** An article of user alice, alone in the table, and a request made
    under the session of user [uid]. *)
Definition aliceArticle : Article :=
  mkArticle "a1" "alice" "Best Coffee" "text" "coffee,brew"
    (pSettings (coffee "None" "None" "No AI Words Removal")) 1000 1000.

Definition aliceDb : Db := <["a1" := aliceArticle]> ∅.

Definition requestOf (uid : string) : ArticleRoute.Run :=
  ArticleRoute.mkRun (Return (Some uid)) None.

(** The size of an article, and the articles whose size is one of the
    four. *)
Definition sizeOf (a : Article) : string := articleSize (settings a).
Definition knownSize (a : Article) : Prop := sizeOf a ∈ articleSizes.

(** Three articles of the scenario; only the size differs. *)
Definition sized (articleId size : string) : Article :=
  mkArticle articleId "u1" "Best Coffee" "text" "coffee,brew"
    (mkSettings "None" size "None" "None" "None" "No AI Words Removal"
                noStructure "en")
    0 0.

(** The two articles of the search scenario. *)
Definition titled (articleId articleTitle articleKeywords : string) : Article :=
  mkArticle articleId "u1" articleTitle "text" articleKeywords
    (mkSettings "None" "Small" "None" "None" "None" "No AI Words Removal"
                noStructure "en")
    0 0.

End Scenario.

(* ===================================================================== *)
(** ** app/api/articles/route.ts: the list of the user's articles         *)
(* ===================================================================== *)

Module ArticlesRoute.
Import Js Schema Http.

Inductive listBody : Type :=
| Articles (rows : list Article)
| ListError (msg : string).

Record ListResponse : Type := mkListResponse {
  listStatus : Z;
  listPayload : listBody
}.

(** [desc(articles.createdAt)] as a comparison. *)
Definition newestFirst (a b : Article) : option Z :=
  Some (createdAt b - createdAt a).

(** [db.select().from(articles).where(eq(articles.userId, uid))
       .orderBy(desc(articles.createdAt))]; rows of equal date come in an
    order the engine chooses. *)
Definition dbSelectByUser (fault : option thrown) (db : Db) (uid : string)
  : completion thrown (list Article) :=
  match fault with
  | Some e => Throw e
  | None =>
      Return (ArticleHistory.sort newestFirst
                (List.filter (fun row => bool_decide (userId row = uid))
                             (snd <$> map_to_list db)))
  end.

Definition tryGET (r : ArticleRoute.Run) (db : Db)
  : completion thrown ListResponse :=
  session <- ArticleRoute.getSession r ;;
  match sessionUser session with
  | None => Return (mkListResponse 401 (ListError "Unauthorized"))
  | Some uid =>
      userArticles <- dbSelectByUser (ArticleRoute.dbFault r) db uid ;;
      Return (mkListResponse 200 (Articles userArticles))
  end.

Definition GET (r : ArticleRoute.Run) (db : Db) : ListResponse :=
  match tryGET r db with
  | Return resp => resp
  | Throw _ => mkListResponse 500 (ListError "Failed to fetch articles")
  end.

End ArticlesRoute.

(* ===================================================================== *)
(** ** hooks/use-articles: what the client makes of a response            *)
(* ===================================================================== *)

Module Hooks.
Import Js Schema Http.

(** [response.ok]. *)
Definition ok (resp : Response) : bool :=
  bool_decide (200 <= status resp <= 299).

(** Property [error] of the parsed body. *)
Definition errorField (b : body) : option string :=
  match b with
  | Error msg => Some msg
  | ErrorDetails msg _ => Some msg
  | _ => None
  end.

(** [x || fallback] on an optional text. *)
Definition orText (x : option string) (fallback : string) : string :=
  match x with
  | Some text => if truthyString text then text else fallback
  | None => fallback
  end.

(** The [mutationFn] of [useGenerateArticle], on the response that
    [fetch] resolved with: the parsed body, or an [Error] thrown with its
    message. *)
Definition generateMutationFn (resp : Response) : completion string body :=
  if ok resp then Return (payload resp)
  else Throw (orText (errorField (payload resp)) "Failed to generate article").

(** The [mutationFn] of [useDeleteArticle]. *)
Definition deleteMutationFn (resp : Response) : completion string body :=
  if ok resp then Return (payload resp)
  else Throw "Failed to delete article".

(** The [queryFn] of [useArticle]. *)
Definition articleQueryFn (resp : Response) : completion string body :=
  if ok resp then Return (payload resp)
  else Throw "Failed to fetch article".

(** The text that [onError] passes to [toast.error]. *)
Definition generateErrorToast (message : string) : string :=
  orText (Some message) "Failed to generate article".

End Hooks.

(* ===================================================================== *)
(** ** app/page: tabs and the selected article                            *)
(* ===================================================================== *)

Module Page.
Import Js Schema Http.

(** The two [useState] cells of [Page]. *)
Record PageState : Type := mkPageState {
  activeTab : string;
  selectedArticle : option Article
}.

Definition initialState : PageState := mkPageState "generate" None.

(** The part of [handleGenerateArticle] after the [await]: a rejected
    mutation leaves the handler there. *)
Definition handleGenerateArticle (mutation : completion string body)
           (st : PageState) : PageState :=
  match mutation with
  | Return _ => mkPageState "history" (selectedArticle st)
  | Throw _ => st
  end.

Definition handleSelectArticle (article : Article) (st : PageState) : PageState :=
  mkPageState "view" (Some article).

(** [selectedArticle?.id === articleId], on the [selectedArticle] that a
    handler holds. *)
Definition hasId (held : option Article) (articleId : string) : bool :=
  match held with
  | Some article => bool_decide (id article = articleId)
  | None => false
  end.

(** The part of [handleDeleteArticle] after the [await]. The handler is
    a closure of the render in which the delete was started, so
    [captured] is the [selectedArticle] of that render, not the one of
    the state [st] in which the mutation settles. *)
Definition handleDeleteArticle (captured : option Article)
           (mutation : completion string body)
           (articleId : string) (st : PageState) : PageState :=
  match mutation with
  | Return _ =>
      if hasId captured articleId then mkPageState "history" None else st
  | Throw _ => st
  end.

(** A click on one of the three tab triggers; the trigger of [view] is
    disabled while no article is selected, and a disabled trigger does
    not call [onValueChange]. *)
Definition clickTab (value : string) (st : PageState) : PageState :=
  if bool_decide (value = "view") && negb (bool_decide (is_Some (selectedArticle st)))
  then st
  else mkPageState value (selectedArticle st).

(** The page together with the deletes that were started and have not
    settled: each with its id and the [selectedArticle] its handler
    captured. *)
Record Running : Type := mkRunning {
  page : PageState;
  pendingDeletes : list (string * option Article)
}.

(** What can happen to the page. *)
Inductive event : Type :=
| GenerateDone (mutation : completion string body)
| Select (article : Article)
| DeleteStarted (articleId : string)
| DeleteSettled (n : nat) (mutation : completion string body)
| Click (value : string).

Definition step (st : Running) (e : event) : Running :=
  match e with
  | GenerateDone mutation =>
      mkRunning (handleGenerateArticle mutation (page st)) (pendingDeletes st)
  | Select article =>
      mkRunning (handleSelectArticle article (page st)) (pendingDeletes st)
  | DeleteStarted articleId =>
      mkRunning (page st)
                (pendingDeletes st ++ [(articleId, selectedArticle (page st))])%list
  | DeleteSettled n mutation =>
      match pendingDeletes st !! n with
      | Some (articleId, captured) =>
          mkRunning (handleDeleteArticle captured mutation articleId (page st))
                    (delete n (pendingDeletes st))
      | None => st
      end
  | Click value => mkRunning (clickTab value (page st)) (pendingDeletes st)
  end.

Definition run (events : list event) : Running :=
  foldl step (mkRunning initialState []) events.

End Page.

(* ===================================================================== *)
(** ** components/article-display and the cards of the history            *)
(* ===================================================================== *)

Module ArticleDisplay.
Import Js Schema.

(** [s.split(sep)] for a separator of one character. *)
Fixpoint split (s : string) (sep : Ascii.ascii) : list string :=
  match s with
  | EmptyString => [EmptyString]
  | String c rest =>
      if bool_decide (c = sep) then EmptyString :: split rest sep
      else match split rest sep with
           | piece :: pieces => String c piece :: pieces
           | [] => [String c EmptyString]
           end
  end.

Definition space : Ascii.ascii := Ascii.ascii_of_nat 32.
Definition comma : Ascii.ascii := Ascii.ascii_of_nat 44.
Definition lineFeed : Ascii.ascii := Ascii.ascii_of_nat 10.

(** [article.content.split(' ').length], shown as the number of words. *)
Definition wordCount (content : string) : nat :=
  length (split content space).

(** The cards of the history show [keywords.split(',').slice(0, 3)] and,
    when there are more than three, a badge with the number left. *)
Definition shownKeywords (keywords : string) : list string :=
  take 3 (split keywords comma).

Definition moreKeywords (keywords : string) : option nat :=
  let n := length (split keywords comma) in
  if bool_decide (3 < n)%nat then Some (n - 3)%nat else None.

(** The characters of [a-z0-9] under flag [i]: the ASCII letters and
    digits (no other character folds to one of them without flag [u]). *)
Definition isAlnum (c : Ascii.ascii) : bool :=
  let n := Ascii.nat_of_ascii c in
  bool_decide (48 <= n <= 57)%nat || bool_decide (65 <= n <= 90)%nat
  || bool_decide (97 <= n <= 122)%nat.

Definition underscore : Ascii.ascii := Ascii.ascii_of_nat 95.

(** [title.replace(/[^a-z0-9]/gi, '_')]. *)
Fixpoint replaceNonAlnum (s : string) : string :=
  match s with
  | EmptyString => EmptyString
  | String c rest =>
      String (if isAlnum c then c else underscore) (replaceNonAlnum rest)
  end.

(** The [download] attribute set by [downloadAsTxt]; after the
    replacement every character is ASCII, on which [toLowerCase] is
    [asciiToLowerCase]. *)
Definition downloadName (title : string) : string :=
  ArticleHistory.asciiToLowerCase (replaceNonAlnum title) +:+ ".txt".

(** White space of [trim] and of [\s], among the code units below 256. *)
Definition isSpace (c : Ascii.ascii) : bool :=
  let n := Ascii.nat_of_ascii c in
  bool_decide (9 <= n <= 13)%nat || bool_decide (n = 32)%nat
  || bool_decide (n = 160)%nat.

Definition isDigit (c : Ascii.ascii) : bool :=
  let n := Ascii.nat_of_ascii c in bool_decide (48 <= n <= 57)%nat.

Fixpoint trimStart (s : string) : string :=
  match s with
  | EmptyString => EmptyString
  | String c rest => if isSpace c then trimStart rest else s
  end.

(** [s.trim()]. *)
Definition trim (s : string) : string :=
  String.rev (trimStart (String.rev (trimStart s))).

(** [s.substring(n)]. *)
Fixpoint substringFrom (n : nat) (s : string) : string :=
  match n, s with
  | O, _ => s
  | S m, String _ rest => substringFrom m rest
  | S _, EmptyString => EmptyString
  end.

(** [s.indexOf(c)], [-1] when [c] does not occur. *)
Fixpoint indexOf (s : string) (c : Ascii.ascii) : Z :=
  match s with
  | EmptyString => -1
  | String d rest =>
      if bool_decide (d = c) then 0
      else let i := indexOf rest c in
           if bool_decide (i = -1) then -1 else i + 1
  end.

Fixpoint skipDigits (s : string) : string :=
  match s with
  | EmptyString => EmptyString
  | String c rest => if isDigit c then skipDigits rest else s
  end.

Definition dot : Ascii.ascii := Ascii.ascii_of_nat 46.

(** [paragraph.match(/^\d+\.\s/)] finds a match. *)
Definition matchesNumbered (paragraph : string) : bool :=
  match paragraph with
  | String c rest =>
      isDigit c
      && match skipDigits rest with
         | String d (String w _) => bool_decide (d = dot) && isSpace w
         | _ => false
         end
  | EmptyString => false
  end.

(** [paragraph.match(/^[-*]\s/)] finds a match. *)
Definition matchesBullet (paragraph : string) : bool :=
  match paragraph with
  | String c (String w _) =>
      (bool_decide (c = Ascii.ascii_of_nat 45) || bool_decide (c = Ascii.ascii_of_nat 42))
      && isSpace w
  | _ => false
  end.

(** What [formatContent] renders a line as, with the text it shows. *)
Inductive element : Type :=
| Null
| H1 (text : string)
| H2 (text : string)
| H3 (text : string)
| NumberedItem (text : string)
| BulletItem (text : string)
| Paragraph (text : string).

Definition formatParagraph (paragraph : string) : element :=
  if bool_decide (trim paragraph = EmptyString) then Null
  else if String.prefix "# " paragraph then H1 (substringFrom 2 paragraph)
  else if String.prefix "## " paragraph then H2 (substringFrom 3 paragraph)
  else if String.prefix "### " paragraph then H3 (substringFrom 4 paragraph)
  else if matchesNumbered paragraph
       then NumberedItem (substringFrom (Z.to_nat (indexOf paragraph dot + 2)) paragraph)
  else if matchesBullet paragraph then BulletItem (substringFrom 2 paragraph)
  else Paragraph paragraph.

Definition formatContent (content : string) : list element :=
  List.map formatParagraph (split content lineFeed).

Definition languages : gmap string string :=
  list_to_map
    [ ("en", "English"); ("es", "Spanish"); ("fr", "French");
      ("de", "German"); ("it", "Italian"); ("pt", "Portuguese");
      ("nl", "Dutch"); ("pl", "Polish"); ("ru", "Russian");
      ("ja", "Japanese"); ("ko", "Korean"); ("zh", "Chinese");
      ("ar", "Arabic"); ("hi", "Hindi"); ("tr", "Turkish");
      ("sv", "Swedish"); ("da", "Danish"); ("no", "Norwegian");
      ("fi", "Finnish") ].

(** [return languages[code] || code]. *)
Definition getLanguageName (code : string) : jsval string :=
  orElse truthyString (get languages code) code.

Definition sizes : gmap string string :=
  list_to_map
    [ ("X-Small", "X-Small (600-1200 words)");
      ("Small", "Small (1200-2400 words)");
      ("Medium", "Medium (2400-3600 words)");
      ("Large", "Large (3600-5200 words)") ].

(** [return sizes[size] || size]. *)
Definition getSizeDisplay (size : string) : jsval string :=
  orElse truthyString (get sizes size) size.

End ArticleDisplay.

(** The helpers of the same names inside [ArticleHistory]. *)
Module HistoryCard.
Import Js Schema.

Definition languages : gmap string string :=
  list_to_map
    [ ("en", "English"); ("es", "Spanish"); ("fr", "French"); ("de", "German");
      ("it", "Italian"); ("pt", "Portuguese"); ("nl", "Dutch"); ("pl", "Polish");
      ("ru", "Russian"); ("ja", "Japanese"); ("ko", "Korean"); ("zh", "Chinese");
      ("ar", "Arabic"); ("hi", "Hindi"); ("tr", "Turkish"); ("sv", "Swedish");
      ("da", "Danish"); ("no", "Norwegian"); ("fi", "Finnish") ].

Definition getLanguageName (code : string) : jsval string :=
  orElse truthyString (get languages code) code.

Definition colors : gmap string string :=
  list_to_map
    [ ("X-Small", "bg-blue-100 text-blue-800");
      ("Small", "bg-green-100 text-green-800");
      ("Medium", "bg-yellow-100 text-yellow-800");
      ("Large", "bg-red-100 text-red-800") ].

(** [return colors[size] || 'bg-gray-100 text-gray-800']. *)
Definition getSizeColor (size : string) : jsval string :=
  orElse truthyString (get colors size) "bg-gray-100 text-gray-800".

End HistoryCard.

(** The row that [POST] builds for user [uid] from the validated body
    and the generated text. *)
Module Stored.
Import Js Schema Http PromptBuilder GenerateRoute.

Definition articleData (r : Run) (uid text : string) (data : PromptData)
  : Article :=
  mkArticle (generateId r) uid (pTitle data) text (pKeywords data)
            (pSettings data) (now1 r) (now2 r).

End Stored.

(** Counting and classifying characters, to state what the display
    helpers compute. *)
Module Counting.

(** How often character [c] occurs in [s]. *)
Fixpoint occurrences (c : Ascii.ascii) (s : string) : nat :=
  match s with
  | EmptyString => 0
  | String d rest =>
      (if bool_decide (d = c) then 1 else 0) + occurrences c rest
  end.

(** A lower-case ASCII letter, a digit or the underscore. *)
Definition isFileNameChar (c : Ascii.ascii) : bool :=
  let n := Ascii.nat_of_ascii c in
  bool_decide (48 <= n <= 57)%nat || bool_decide (97 <= n <= 122)%nat
  || bool_decide (n = 95)%nat.

(** Every character of [s] satisfies [p]. *)
Fixpoint allChars (p : Ascii.ascii -> bool) (s : string) : bool :=
  match s with
  | EmptyString => true
  | String c rest => p c && allChars p rest
  end.

End Counting.

(** The last sentence block of every prompt. *)
Module Closing.

Definition closingInstruction : string :=
  "Please write the complete article now. Start with the title, followed by the meta description, then the full article content. Make sure to follow all the specified requirements and create high-quality, engaging content that ranks well in search engines.".

End Closing.

(* ===================================================================== *)
(** ** Strings: occurrence of a text inside another                       *)
(* ===================================================================== *)

Module StringFacts.
Import Js Scenario.

Lemma append_cons (c : Ascii.ascii) (a b : string) :
  String c a +:+ b = String c (a +:+ b).
Proof. reflexivity. Qed.

Lemma append_nil_l (a : string) : EmptyString +:+ a = a.
Proof. reflexivity. Qed.

Lemma append_assoc (a b c : string) : (a +:+ b) +:+ c = a +:+ (b +:+ c).
Proof.
  induction a as [|ch a IH]; [reflexivity |].
  rewrite !append_cons. now rewrite IH.
Qed.

Lemma append_nil_r (a : string) : a +:+ EmptyString = a.
Proof.
  induction a as [|ch a IH]; [reflexivity |].
  rewrite append_cons. now rewrite IH.
Qed.

Lemma prefix_spec (t s : string) :
  String.prefix t s = true <-> exists post, s = t +:+ post.
Proof.
  revert s. induction t as [|c t IH]; intros [|d s]; simpl.
  - split; [intros _; now exists EmptyString | reflexivity].
  - split; [intros _; now exists (String d s) | reflexivity].
  - split; [discriminate | intros [post H]; discriminate].
  - destruct (Ascii.ascii_dec c d) as [->|Hne].
    + rewrite IH. split; intros [post H]; exists post.
      * rewrite append_cons. now rewrite H.
      * rewrite append_cons in H. now inversion H.
    + split; [discriminate |].
      intros [post H]. rewrite append_cons in H. injection H as Hc _.
      now destruct Hne.
Qed.

Lemma includes_nil (t : string) :
  includes EmptyString t = String.prefix t EmptyString.
Proof. simpl. now destruct t. Qed.

Lemma includes_cons (c : Ascii.ascii) (s t : string) :
  includes (String c s) t
  = if String.prefix t (String c s) then true else includes s t.
Proof. reflexivity. Qed.

Lemma includes_spec (s t : string) : includes s t = true <-> contains s t.
Proof.
  unfold contains. induction s as [|c s IH].
  - rewrite includes_nil. rewrite prefix_spec. split.
    + intros [post H]. now exists EmptyString, post.
    + intros [pre [post H]]. destruct pre as [|d pre].
      * now exists post.
      * rewrite append_cons in H. discriminate.
  - rewrite includes_cons.
    destruct (String.prefix t (String c s)) eqn:Hp.
    + split; [intros _ | reflexivity].
      apply prefix_spec in Hp as [post Hp]. now exists EmptyString, post.
    + rewrite IH. split.
      * intros [pre [post H]]. exists (String c pre), post.
        rewrite append_cons. now rewrite H.
      * intros [pre [post H]]. destruct pre as [|d pre].
        -- assert (String.prefix t (String c s) = true) as Hq
             by (apply prefix_spec; now exists post).
           congruence.
        -- rewrite append_cons in H. inversion H. now exists pre, post.
Qed.

Lemma includes_false (s t : string) : includes s t = false <-> ~ contains s t.
Proof.
  rewrite <- includes_spec. destruct (includes s t); split; congruence.
Qed.

Lemma contains_refl (s : string) : contains s s.
Proof. exists EmptyString, EmptyString. now rewrite append_nil_r. Qed.

Lemma contains_app_l (a b t : string) : contains a t -> contains (a +:+ b) t.
Proof.
  intros [pre [post ->]]. exists pre, (post +:+ b).
  now rewrite !append_assoc.
Qed.

Lemma contains_app_r (a b t : string) : contains b t -> contains (a +:+ b) t.
Proof.
  intros [pre [post ->]]. exists (a +:+ pre), post.
  now rewrite !append_assoc.
Qed.

Lemma contains_trans (s t u : string) : contains s t -> contains t u -> contains s u.
Proof.
  intros [pre [post ->]] Hu.
  apply contains_app_r, contains_app_l, Hu.
Qed.

End StringFacts.

(* ===================================================================== *)
(** ** Property reads on the object literals                              *)
(* ===================================================================== *)

Module JsFacts.
Import Js.

Section Get.
Context {A : Type}.
Implicit Types (obj : gmap string A) (key : string).

Lemma get_own obj key a : obj !! key = Some a -> get obj key = Some (Val a).
Proof. unfold get. now intros ->. Qed.

Lemma get_inherited obj key :
  obj !! key = None -> key ∈ objectPrototypeKeys ->
  get obj key = Some (Builtin key).
Proof. unfold get. intros -> Hin. now rewrite bool_decide_eq_true_2. Qed.

Lemma get_undefined obj key :
  obj !! key = None -> key ∉ objectPrototypeKeys -> get obj key = None.
Proof. unfold get. intros -> Hin. now rewrite bool_decide_eq_false_2. Qed.

(** A read is [undefined] exactly for a key that is neither the literal's
    own nor inherited. *)
Lemma get_None_iff obj key :
  get obj key = None <-> obj !! key = None /\ key ∉ objectPrototypeKeys.
Proof.
  unfold get. destruct (obj !! key) as [a|].
  - split; [discriminate | intros [? _]; discriminate].
  - case_bool_decide; split; try discriminate; tauto.
Qed.

(** The keys of an object literal are the first components of its list. *)
Lemma literal_missing (l : list (string * A)) key :
  key ∉ l.*1 -> (list_to_map l : gmap string A) !! key = None.
Proof. apply not_elem_of_list_to_map_1. Qed.

End Get.

(** Case analysis on membership in a list that is written out. *)
Ltac each_member H :=
  repeat (apply elem_of_cons in H as [->|H]);
  [.. | exfalso; apply elem_of_nil in H; exact H].

(** A decidable closed proposition, settled by evaluation. *)
Ltac by_evaluation := apply (bool_decide_unpack _); vm_compute; exact I.

(** Evaluate a closed decision inside the goal. *)
Ltac eval_decide :=
  match goal with
  | |- context [bool_decide ?P] =>
      let b := eval vm_compute in (bool_decide P) in
      change (bool_decide P) with b
  end.

Lemma orElse_string_undefined (d : string) :
  orElse truthyString None d = Val d.
Proof. reflexivity. Qed.

End JsFacts.

(* ===================================================================== *)
(** ** getMaxTokens                                                       *)
(* ===================================================================== *)

Module GetMaxTokensFacts.
Import Js JsFacts GenerateRoute.

(** The four sizes have their fixed budgets. *)
Lemma getMaxTokens_table :
  getMaxTokens "X-Small" = Val 2000 /\ getMaxTokens "Small" = Val 4000 /\
  getMaxTokens "Medium" = Val 6000 /\ getMaxTokens "Large" = Val 8000.
Proof. repeat split; vm_compute; reflexivity. Qed.

(** A size that is neither one of the four nor the name of an inherited
    property falls back to 4000. *)
Lemma getMaxTokens_fallback (articleSize : string) :
  articleSize ∉ articleSizes -> articleSize ∉ objectPrototypeKeys ->
  getMaxTokens articleSize = Val 4000.
Proof.
  intros Hsize Hproto. unfold getMaxTokens.
  rewrite get_undefined; [reflexivity | | assumption].
  now apply literal_missing.
Qed.

(** An inherited name is answered by the built-in it names. *)
Lemma getMaxTokens_inherited (articleSize : string) :
  articleSize ∈ objectPrototypeKeys ->
  getMaxTokens articleSize = Builtin articleSize.
Proof.
  intros Hproto. unfold objectPrototypeKeys in Hproto.
  each_member Hproto; vm_compute; reflexivity.
Qed.

(** C7, at the size [constructor]: the table has no entry for it and it is
    none of the four sizes, yet the lookup finds the inherited function
    [Object], which is truthy, so that the result is this function and
    not the number 4000. *)
Theorem getMaxTokens_constructor_not_4000 :
  ("constructor" ∉ articleSizes) /\
  (tokenLimits !! "constructor" = None) /\
  getMaxTokens "constructor" = Builtin "constructor" /\
  getMaxTokens "constructor" <> Val 4000.
Proof.
  split; [by_evaluation |].
  split; [vm_compute; reflexivity |].
  split; [vm_compute; reflexivity |].
  vm_compute. discriminate.
Qed.

End GetMaxTokensFacts.

(* ===================================================================== *)
(** ** buildArticlePrompt                                                 *)
(* ===================================================================== *)

Module PromptBuilderFacts.
Import Js JsFacts Schema PromptBuilder GenerateRoute Scenario StringFacts.

(** *** The size lookup decides whether a prompt is returned *)

Lemma size_has_requirements (size : string) :
  size ∈ articleSizes -> exists r, get sizeRequirements size = Some (Val r).
Proof.
  intros Hin. unfold articleSizes in Hin.
  each_member Hin; eexists; vm_compute; reflexivity.
Qed.

Lemma size_undefined (size : string) :
  size ∉ articleSizes -> size ∉ objectPrototypeKeys ->
  get sizeRequirements size = None.
Proof.
  intros Hsize Hproto. apply get_undefined; [| assumption].
  now apply literal_missing.
Qed.

Lemma build_defined (d : PromptData) (sizeReq : jsval SizeReq) :
  get sizeRequirements (articleSize (pSettings d)) = Some sizeReq ->
  buildArticlePrompt d
  = Return (beforeStructure d (targetLanguageOf (language (pSettings d))) sizeReq
              +:+ structureHeader
              +:+ includeLine (structure (pSettings d))
              +:+ footer (targetLanguageOf (language (pSettings d))) sizeReq).
Proof.
  intros Hsize. unfold buildArticlePrompt, beforeStructure, targetLanguageOf.
  rewrite Hsize. cbv zeta. f_equal.
  rewrite !append_assoc. reflexivity.
Qed.

Lemma build_throws_iff (d : PromptData) :
  buildArticlePrompt d = Throw TypeError
  <-> get sizeRequirements (articleSize (pSettings d)) = None.
Proof.
  unfold buildArticlePrompt.
  destruct (get sizeRequirements (articleSize (pSettings d)));
    split; (discriminate || reflexivity).
Qed.

(** Under the precondition the compiler is total. *)
Lemma build_total_on_sizes (d : PromptData) :
  articleSize (pSettings d) ∈ articleSizes ->
  exists p, buildArticlePrompt d = Return p.
Proof.
  intros [r Hr]%size_has_requirements.
  eexists. apply build_defined. exact Hr.
Qed.

(** Outside the four sizes, and outside the inherited names, it throws. *)
Lemma build_throws (d : PromptData) :
  articleSize (pSettings d) ∉ articleSizes ->
  articleSize (pSettings d) ∉ objectPrototypeKeys ->
  buildArticlePrompt d = Throw TypeError.
Proof.
  intros Hsize Hproto. apply build_throws_iff. now apply size_undefined.
Qed.

(** *** The clauses of the four stylistic axes *)

Lemma raw_fallback (table : gmap string string) (value : string) :
  table !! value = None -> value ∉ objectPrototypeKeys ->
  render (orElse truthyString (get table value) value) = value.
Proof. intros Hnone Hproto. now rewrite get_undefined. Qed.

Lemma toneClause_neutral : toneClause "None" = EmptyString.
Proof. reflexivity. Qed.
Lemma pointOfViewClause_neutral : pointOfViewClause "None" = EmptyString.
Proof. reflexivity. Qed.
Lemma readabilityClause_neutral : readabilityClause "None" = EmptyString.
Proof. reflexivity. Qed.
Lemma aiCleaningClause_neutral : aiCleaningClause "No AI Words Removal" = EmptyString.
Proof. reflexivity. Qed.

(** A value without a table entry is emitted as it is, provided it is not
    the name of an inherited property. *)
Lemma toneClause_raw (tone : string) :
  tone <> "None" -> toneInstructions !! tone = None ->
  tone ∉ objectPrototypeKeys ->
  toneClause tone = nl +:+ "- Tone: " +:+ tone.
Proof.
  intros Hn Ht Hp. unfold toneClause.
  rewrite bool_decide_eq_true_2 by assumption. now rewrite raw_fallback.
Qed.

Lemma pointOfViewClause_raw (pov : string) :
  pov <> "None" -> povInstructions !! pov = None ->
  pov ∉ objectPrototypeKeys ->
  pointOfViewClause pov = nl +:+ "- Point of View: " +:+ pov.
Proof.
  intros Hn Ht Hp. unfold pointOfViewClause.
  rewrite bool_decide_eq_true_2 by assumption. now rewrite raw_fallback.
Qed.

Lemma readabilityClause_raw (readab : string) :
  readab <> "None" -> readabilityInstructions !! readab = None ->
  readab ∉ objectPrototypeKeys ->
  readabilityClause readab = nl +:+ "- Readability Level: " +:+ readab.
Proof.
  intros Hn Ht Hp. unfold readabilityClause.
  rewrite bool_decide_eq_true_2 by assumption. now rewrite raw_fallback.
Qed.

Lemma aiCleaningClause_raw (cleaning : string) :
  cleaning <> "No AI Words Removal" -> cleaningInstructions !! cleaning = None ->
  cleaning ∉ objectPrototypeKeys ->
  aiCleaningClause cleaning = nl +:+ "- Content Style: " +:+ cleaning.
Proof.
  intros Hn Ht Hp. unfold aiCleaningClause.
  rewrite bool_decide_eq_true_2 by assumption. now rewrite raw_fallback.
Qed.

(** The name of an inherited property is answered by the text of the
    built-in, for every axis alike. *)
Lemma toneClause_inherited (tone : string) :
  tone ∈ objectPrototypeKeys ->
  toneClause tone = nl +:+ "- Tone: " +:+ builtinToString tone.
Proof.
  intros Hin. unfold objectPrototypeKeys in Hin.
  each_member Hin; vm_compute; reflexivity.
Qed.

(** *** The structure block *)

Lemma structureItems_expected (st : Structure) :
  structureItems st = expectedItems st.
Proof. destruct st as [[] [] [] [] [] [] [] [] []]; reflexivity. Qed.

Lemma expectedItems_nil_iff (st : Structure) :
  expectedItems st = [] <-> allFalse st = true.
Proof.
  destruct st as [[] [] [] [] [] [] [] [] []];
    vm_compute; split; (discriminate || reflexivity).
Qed.

(** Every flag that is set contributes its own label once, and a flag
    that is not set contributes none. *)
Lemma expectedItems_label (st : Structure) (flag : Structure -> bool)
      (label : string) :
  (flag, label) ∈ declaredOrder ->
  List.count_occ String.string_dec (expectedItems st) label
  = if flag st then 1%nat else 0%nat.
Proof.
  intros Hin. unfold declaredOrder in Hin.
  repeat (apply elem_of_cons in Hin as [[= -> ->]|Hin]);
    [.. | exfalso; apply elem_of_nil in Hin; exact Hin];
    destruct st as [[] [] [] [] [] [] [] [] []]; vm_compute; reflexivity.
Qed.

(** C5, as the code has it. For every combination of the nine flags, the
    items collected by the compiler are the labels of the set flags in
    the declared order (conclusion, faqSection, tables, h3Headings,
    lists, italics, bold, quotes, keyTakeaways), each label once for a
    set flag and not at all for a flag that is not set. The structure
    step appends the fixed heading STRUCTURE REQUIREMENTS: for every
    combination, and after it the Include line with these labels joined
    by commas; when all nine flags are false there is no Include line
    and the heading is all that the step appends, directly followed by
    the fixed closing block. *)
Theorem include_line_lists_set_flags (d : PromptData) :
  let st := structure (pSettings d) in
  structureItems st = expectedItems st /\
  (forall (flag : Structure -> bool) (label : string),
     (flag, label) ∈ declaredOrder ->
     List.count_occ String.string_dec (structureItems st) label
     = if flag st then 1%nat else 0%nat) /\
  (allFalse st = true -> includeLine st = EmptyString) /\
  (allFalse st = false ->
     includeLine st = nl +:+ "- Include: " +:+ join ", " (expectedItems st)) /\
  (forall sizeReq,
     get sizeRequirements (articleSize (pSettings d)) = Some sizeReq ->
     buildArticlePrompt d
     = Return (beforeStructure d (targetLanguageOf (language (pSettings d))) sizeReq
                 +:+ structureHeader +:+ includeLine st
                 +:+ footer (targetLanguageOf (language (pSettings d))) sizeReq)) /\
  (allFalse st = true ->
   forall sizeReq,
     get sizeRequirements (articleSize (pSettings d)) = Some sizeReq ->
     buildArticlePrompt d
     = Return (beforeStructure d (targetLanguageOf (language (pSettings d))) sizeReq
                 +:+ structureHeader
                 +:+ footer (targetLanguageOf (language (pSettings d))) sizeReq)).
Proof.
  intros st.
  assert (allFalse st = true -> includeLine st = EmptyString) as Hempty.
  { intros Hall. apply expectedItems_nil_iff in Hall.
    unfold includeLine. rewrite structureItems_expected, Hall. reflexivity. }
  split; [apply structureItems_expected |].
  split.
  { intros flag label Hin. rewrite structureItems_expected.
    now apply expectedItems_label. }
  split; [exact Hempty |].
  split.
  { intros Hsome. unfold includeLine. rewrite structureItems_expected.
    destruct (expectedItems st) as [|x rest] eqn:Hitems.
    - apply expectedItems_nil_iff in Hitems. congruence.
    - rewrite bool_decide_eq_true_2 by (simpl; lia). reflexivity. }
  split; [intros sizeReq Hsize; now apply build_defined |].
  intros Hall sizeReq Hsize.
  rewrite (build_defined d sizeReq Hsize). fold st.
  rewrite (Hempty Hall). reflexivity.
Qed.

Lemma include_line_lists_set_flags_witness :
  includeLine noStructure = EmptyString /\
  includeLine listsAndConclusion
  = nl +:+ "- Include: Conclusion section, Bulleted or numbered lists" /\
  (exists p, buildArticlePrompt (coffee "None" "None" "No AI Words Removal") = Return p) /\
  buildArticlePrompt (plain "Small" "None" "en")
  = Return (beforeStructure (plain "Small" "None" "en") "English"
                            (Val (mkSizeReq "1200-2400" "5-8"))
              +:+ structureHeader
              +:+ footer "English" (Val (mkSizeReq "1200-2400" "5-8"))).
Proof.
  pose proof (include_line_lists_set_flags (plain "Small" "None" "en"))
    as (_ & _ & Hnone & _ & _ & Hheading).
  pose proof (include_line_lists_set_flags
                (coffee "None" "None" "No AI Words Removal"))
    as (_ & _ & _ & Hsome & Hbuild & _).
  split; [exact (Hnone eq_refl) |].
  split; [exact (Hsome eq_refl) |].
  split.
  - eexists. apply (Hbuild (Val (mkSizeReq "1200-2400" "5-8"))).
    vm_compute. reflexivity.
  - apply (Hheading eq_refl (Val (mkSizeReq "1200-2400" "5-8"))).
    vm_compute. reflexivity.
Defined.

(** C5 as the specification words it fails: with all nine flags false the
    structure step still appends its heading; the compiled text contains
    it, which the text before the step followed by the closing block
    does not. *)
Lemma all_flags_false_still_appends :
  allFalse (structure (pSettings (plain "Small" "None" "en"))) = true /\
  (exists p,
     buildArticlePrompt (plain "Small" "None" "en") = Return p /\
     includes p "STRUCTURE REQUIREMENTS:" = true) /\
  includes (beforeStructure (plain "Small" "None" "en") "English"
                            (Val (mkSizeReq "1200-2400" "5-8"))
              +:+ footer "English" (Val (mkSizeReq "1200-2400" "5-8")))
           "STRUCTURE REQUIREMENTS:" = false.
Proof.
  split; [reflexivity |].
  split; [eexists; split; vm_compute; reflexivity |].
  vm_compute. reflexivity.
Qed.

(** *** The coffee scenario *)

Lemma coffee_prompt (pov readab cleaning : string) :
  buildArticlePrompt (coffee pov readab cleaning)
  = Return (beforeStructure (coffee pov readab cleaning) "English"
                            (Val (mkSizeReq "1200-2400" "5-8"))
              +:+ structureHeader +:+ includeLine listsAndConclusion
              +:+ footer "English" (Val (mkSizeReq "1200-2400" "5-8"))).
Proof. apply build_defined. vm_compute. reflexivity. Qed.

(** C4, as the code has it. For the coffee settings, whatever the point of
    view, readability and cleaning level that the scenario leaves open:
    the compiled text contains the word-count range 1200-2400, the
    clause of the Friendly tone, and the line
    [- Include: Conclusion section, Bulleted or numbered lists], whose
    labels follow the declared flag order (conclusion before lists); the
    token budget of size Small is 4000. *)
Theorem coffee_scenario (pov readab cleaning : string) :
  exists p,
    buildArticlePrompt (coffee pov readab cleaning) = Return p /\
    contains p "- Word Count: 1200-2400 words" /\
    contains p "- Tone: Use a warm, approachable, and conversational tone" /\
    contains p (nl +:+ "- Include: Conclusion section, Bulleted or numbered lists" +:+ nl) /\
    getMaxTokens (articleSize (pSettings (coffee pov readab cleaning))) = Val 4000.
Proof.
  eexists. split; [apply coffee_prompt |].
  unfold beforeStructure. cbn [pSettings pTitle pKeywords coffee articleType tone].
  split.
  { do 2 apply contains_app_l. apply includes_spec. vm_compute. reflexivity. }
  split.
  { apply contains_app_l, contains_app_r, contains_app_r, contains_app_l.
    apply includes_spec. vm_compute. reflexivity. }
  split.
  { do 2 apply contains_app_r. apply includes_spec. vm_compute. reflexivity. }
  vm_compute. reflexivity.
Qed.

(** C4 as the specification words it fails: the text compiled for the
    coffee settings (with the open fields neutral) has no line
    [Include: Lists, Conclusion]. *)
Lemma coffee_scenario_spec_wording_fails :
  exists p,
    buildArticlePrompt (coffee "None" "None" "No AI Words Removal") = Return p /\
    includes p "Include: Lists, Conclusion" = false /\
    includes p "Include: Conclusion section, Bulleted or numbered lists" = true.
Proof.
  eexists. split; [vm_compute; reflexivity |].
  split; vm_compute; reflexivity.
Qed.

(** *** A key that names an inherited property *)

(** C6, at the tone [constructor]: it is not the neutral value and the
    tone table has no entry for it, yet the clause is not the raw value:
    the lookup finds the inherited function [Object], and the clause
    carries its source text. *)
Theorem tone_constructor_not_raw :
  "constructor" <> "None" /\
  toneInstructions !! "constructor" = None /\
  toneClause "constructor"
  = nl +:+ "- Tone: function Object() { [native code] }" /\
  toneClause "constructor" <> nl +:+ "- Tone: constructor" /\
  exists p,
    buildArticlePrompt (plain "Small" "constructor" "en") = Return p /\
    includes p "- Tone: function Object() { [native code] }" = true /\
    includes p "- Tone: constructor" = false.
Proof.
  split; [discriminate |].
  split; [vm_compute; reflexivity |].
  split; [vm_compute; reflexivity |].
  split; [vm_compute; discriminate |].
  eexists. split; [vm_compute; reflexivity |].
  split; vm_compute; reflexivity.
Qed.

(** C10, at the size [constructor]: it is none of the four sizes and the
    size table has no entry for it, yet a prompt is returned: the lookup
    finds the inherited function [Object], whose [words] and [h2] are
    [undefined], and the prompt asks for undefined words. *)
Theorem size_constructor_returns_prompt :
  ("constructor" ∉ articleSizes) /\
  sizeRequirements !! "constructor" = None /\
  exists p,
    buildArticlePrompt (plain "constructor" "None" "en") = Return p /\
    includes p "- Word Count: undefined words" = true /\
    includes p "- H2 Headings: undefined sections" = true.
Proof.
  split; [by_evaluation |].
  split; [vm_compute; reflexivity |].
  eexists. split; [vm_compute; reflexivity |].
  split; vm_compute; reflexivity.
Qed.

(** *** Which values make compilation fail *)

Lemma targetLanguage_default (lang : string) :
  languageNames !! lang = None -> lang ∉ objectPrototypeKeys ->
  targetLanguageOf lang = "English".
Proof.
  intros Hnone Hproto. unfold targetLanguageOf.
  now rewrite get_undefined.
Qed.

Lemma build_language (d : PromptData) (lang : string) :
  targetLanguageOf (language (pSettings d)) = targetLanguageOf lang ->
  buildArticlePrompt d = buildArticlePrompt (withLanguage d lang).
Proof.
  unfold targetLanguageOf, buildArticlePrompt, withLanguage. intros Hlang.
  cbn [pSettings pTitle pKeywords articleType articleSize tone pointOfView
       readability aiCleaning structure language].
  rewrite Hlang. reflexivity.
Qed.

(** C2, as the code has it. Compilation fails only through the article
    size: with a size among the four it returns a prompt whatever
    articleType, tone, pointOfView, readability and aiCleaning hold (values
    outside their allowed sets included); with a size that is neither one
    of the four nor the name of an inherited property it throws. A
    language code without an entry (and not such a name) compiles as
    English does. *)
Theorem compilation_fails_only_on_size (d : PromptData) :
  let s := pSettings d in
  (articleSize s ∈ articleSizes -> exists p, buildArticlePrompt d = Return p) /\
  (articleSize s ∉ articleSizes -> articleSize s ∉ objectPrototypeKeys ->
     buildArticlePrompt d = Throw TypeError) /\
  (languageNames !! language s = None -> language s ∉ objectPrototypeKeys ->
     targetLanguageOf (language s) = "English" /\
     buildArticlePrompt d = buildArticlePrompt (withLanguage d "en")).
Proof.
  intros s. split; [apply build_total_on_sizes |].
  split; [apply build_throws |].
  intros Hnone Hproto.
  pose proof (targetLanguage_default _ Hnone Hproto) as Hlang.
  split; [exact Hlang |].
  apply build_language. fold s. rewrite Hlang. vm_compute. reflexivity.
Qed.

Lemma compilation_fails_only_on_size_witness :
  (exists p, buildArticlePrompt (offList "Small" "xx") = Return p) /\
  buildArticlePrompt (offList "Huge" "xx") = Throw TypeError /\
  buildArticlePrompt (offList "Small" "xx") = buildArticlePrompt (offList "Small" "en").
Proof.
  split.
  { apply (compilation_fails_only_on_size (offList "Small" "xx")). by_evaluation. }
  split.
  { apply (compilation_fails_only_on_size (offList "Huge" "xx")); by_evaluation. }
  apply (compilation_fails_only_on_size (offList "Small" "xx"));
    [vm_compute; reflexivity | by_evaluation].
Defined.

(** C2 as the specification words it fails: a tone outside the allowed
    tones (every other field allowed) does not make compilation fail; the
    value is emitted as the clause. *)
Lemma unknown_tone_compiles :
  ("Sarcastic" ∉ tones) /\
  buildArticlePrompt (plain "Small" "Sarcastic" "en") <> Throw TypeError /\
  exists p,
    buildArticlePrompt (plain "Small" "Sarcastic" "en") = Return p /\
    includes p "- Tone: Sarcastic" = true.
Proof.
  split; [by_evaluation |].
  split; [vm_compute; discriminate |].
  eexists. split; [vm_compute; reflexivity |].
  vm_compute. reflexivity.
Qed.

End PromptBuilderFacts.

(* ===================================================================== *)
(** ** The filter and the sort of the article history                     *)
(* ===================================================================== *)

Module ArticleHistoryFacts.
Import Js JsFacts Schema ArticleHistory GenerateRoute Scenario StringFacts.

(** *** The sort *)

Section Sort.
Context {A : Type} (comparefn : A -> A -> option Z).

Lemma insertSorted_perm (x : A) (l : list A) :
  insertSorted comparefn x l ≡ₚ x :: l.
Proof.
  induction l as [|y l IH]; simpl; [reflexivity |].
  destruct (goesAfter comparefn x y); [| reflexivity].
  rewrite IH. apply Permutation_swap.
Qed.

Lemma sort_perm (l : list A) : sort comparefn l ≡ₚ l.
Proof.
  induction l as [|x l IH]; simpl; [reflexivity |].
  rewrite insertSorted_perm. now rewrite IH.
Qed.

(** When the comparison is the difference of a numeric key on the
    elements at hand, the result is ordered by that key. *)
Variable key : A -> Z.
Variable P : A -> Prop.
Hypothesis comparefn_key :
  forall x y, P x -> P y -> comparefn x y = Some (key x - key y).

Lemma goesAfter_key (x y : A) :
  P x -> P y -> goesAfter comparefn x y = bool_decide (key y < key x).
Proof.
  intros Hx Hy. unfold goesAfter. rewrite comparefn_key by assumption.
  apply bool_decide_ext. lia.
Qed.

Lemma insertSorted_sorted (x : A) (l : list A) :
  P x -> Forall P l ->
  StronglySorted (fun a b => key a <= key b) l ->
  StronglySorted (fun a b => key a <= key b) (insertSorted comparefn x l).
Proof.
  intros Hx HP Hs. induction Hs as [|y l Hs IH Hall]; simpl.
  - repeat constructor.
  - apply Forall_cons in HP as [Hy HP].
    rewrite goesAfter_key by assumption. case_bool_decide as Hlt.
    + constructor; [now apply IH |].
      rewrite insertSorted_perm. constructor; [lia | exact Hall].
    + constructor; [now constructor |].
      constructor; [lia |].
      eapply Forall_impl; [exact Hall |]. simpl. intros z Hz. lia.
Qed.

Lemma sort_sorted (l : list A) :
  Forall P l -> StronglySorted (fun a b => key a <= key b) (sort comparefn l).
Proof.
  induction l as [|x l IH]; simpl; intros HP; [constructor |].
  apply Forall_cons in HP as [Hx HP].
  apply insertSorted_sorted; [assumption | | now apply IH].
  now rewrite sort_perm.
Qed.

End Sort.

(** A sorted list stays sorted under a weaker order. *)
Lemma StronglySorted_weaken {A : Type} (R1 R2 : A -> A -> Prop) (l : list A) :
  (forall a b, R1 a b -> R2 a b) -> StronglySorted R1 l -> StronglySorted R2 l.
Proof.
  intros Himp Hs. induction Hs as [|x l Hs IH Hall]; constructor.
  - exact IH.
  - eapply Forall_impl; [exact Hall |]. intros b Hb. now apply Himp.
Qed.

(** *** Sorting by article size *)

Lemma sizeOrder_severity (size : string) :
  size ∈ articleSizes -> get sizeOrder size = Some (Val (severity size)).
Proof.
  intros Hin. unfold articleSizes in Hin.
  each_member Hin; vm_compute; reflexivity.
Qed.

Lemma comparefn_severity (localeCompare : string -> string -> Z) (a b : Article) :
  knownSize a -> knownSize b ->
  comparefn localeCompare ByArticleSize Asc a b
  = Some (severity (sizeOf a) - severity (sizeOf b)).
Proof.
  intros Ha Hb. unfold comparefn, comparison, sizeOf.
  unfold knownSize, sizeOf in Ha, Hb.
  rewrite (sizeOrder_severity _ Ha), (sizeOrder_severity _ Hb). reflexivity.
Qed.

Lemma goesAfter_severity (localeCompare : string -> string -> Z) (a b : Article) :
  knownSize a -> knownSize b ->
  goesAfter (comparefn localeCompare ByArticleSize Asc) a b
  = bool_decide (severity (sizeOf b) < severity (sizeOf a)).
Proof.
  apply (goesAfter_key _ (fun a => severity (sizeOf a)) knownSize
                       (comparefn_severity localeCompare)).
Qed.

Lemma comparefn_severity_desc (localeCompare : string -> string -> Z)
      (a b : Article) :
  knownSize a -> knownSize b ->
  comparefn localeCompare ByArticleSize Desc a b
  = Some (- severity (sizeOf a) - - severity (sizeOf b)).
Proof.
  intros Ha Hb. unfold comparefn, comparison, sizeOf.
  unfold knownSize, sizeOf in Ha, Hb.
  rewrite (sizeOrder_severity _ Ha), (sizeOrder_severity _ Hb).
  simpl. f_equal. lia.
Qed.

Lemma goesAfter_severity_desc (localeCompare : string -> string -> Z)
      (a b : Article) :
  knownSize a -> knownSize b ->
  goesAfter (comparefn localeCompare ByArticleSize Desc) a b
  = bool_decide (- severity (sizeOf b) < - severity (sizeOf a)).
Proof.
  apply (goesAfter_key _ (fun a => - severity (sizeOf a)) knownSize
                       (comparefn_severity_desc localeCompare)).
Qed.

(** C9. With sort field articleSize, two articles of known sizes are
    compared by the difference of their severities (X-Small 1, Small 2,
    Medium 3, Large 4), taken as it is in ascending order and negated
    in descending order; the displayed list is then a rearrangement of
    the filtered articles in ascending, respectively descending,
    severity. Three articles of sizes Large, X-Small, Medium come out
    ascending as X-Small, Medium, Large and descending as Large, Medium,
    X-Small, although as strings Large precedes Medium and Medium
    precedes X-Small. *)
Theorem articleSize_sort_by_severity
        (toLowerCase : string -> string) (localeCompare : string -> string -> Z)
        (searchTerm filterType : string) (articles : list Article) :
  Forall knownSize articles ->
  let shown :=
    filteredArticles toLowerCase localeCompare searchTerm filterType
                     ByArticleSize Asc articles in
  (forall a b, knownSize a -> knownSize b ->
     comparefn localeCompare ByArticleSize Asc a b
     = Some (severity (sizeOf a) - severity (sizeOf b))) /\
  shown ≡ₚ List.filter (keeps toLowerCase searchTerm filterType) articles /\
  StronglySorted (fun a b => severity (sizeOf a) <= severity (sizeOf b)) shown /\
  (forall a1 a2 a3,
     sizeOf a1 = "Large" -> sizeOf a2 = "X-Small" -> sizeOf a3 = "Medium" ->
     sort (comparefn localeCompare ByArticleSize Asc) [a1; a2; a3] = [a2; a3; a1]) /\
  ("Large" ?= "Medium")%string = Lt /\ ("Medium" ?= "X-Small")%string = Lt /\
  let shownDescending :=
    filteredArticles toLowerCase localeCompare searchTerm filterType
                     ByArticleSize Desc articles in
  (forall a b, knownSize a -> knownSize b ->
     comparefn localeCompare ByArticleSize Desc a b
     = Some (severity (sizeOf b) - severity (sizeOf a))) /\
  shownDescending
    ≡ₚ List.filter (keeps toLowerCase searchTerm filterType) articles /\
  StronglySorted (fun a b => severity (sizeOf b) <= severity (sizeOf a))
                 shownDescending /\
  (forall a1 a2 a3,
     sizeOf a1 = "Large" -> sizeOf a2 = "X-Small" -> sizeOf a3 = "Medium" ->
     sort (comparefn localeCompare ByArticleSize Desc) [a1; a2; a3] = [a1; a3; a2]).
Proof.
  intros Hknown shown.
  assert (Forall knownSize
            (List.filter (keeps toLowerCase searchTerm filterType) articles))
    as Hfiltered.
  { rewrite Forall_forall in Hknown |- *. intros a Ha.
    apply Hknown. apply list_elem_of_In in Ha.
    apply list_elem_of_In. apply List.filter_In in Ha. tauto. }
  split; [apply comparefn_severity |].
  split; [apply sort_perm |].
  split.
  { apply (sort_sorted _ (fun a => severity (sizeOf a)) knownSize);
      [apply comparefn_severity | exact Hfiltered]. }
  split.
  { intros a1 a2 a3 H1 H2 H3.
    assert (knownSize a1) as K1 by (unfold knownSize; rewrite H1; by_evaluation).
    assert (knownSize a2) as K2 by (unfold knownSize; rewrite H2; by_evaluation).
    assert (knownSize a3) as K3 by (unfold knownSize; rewrite H3; by_evaluation).
    cbn [sort insertSorted].
    rewrite (goesAfter_severity _ a2 a3) by assumption.
    rewrite H2, H3. eval_decide. cbn [insertSorted].
    rewrite (goesAfter_severity _ a1 a2) by assumption.
    rewrite H1, H2. eval_decide. cbn [insertSorted].
    rewrite (goesAfter_severity _ a1 a3) by assumption.
    rewrite H1, H3. eval_decide. reflexivity. }
  split; [reflexivity |]. split; [reflexivity |].
  intros shownDescending. split.
  { intros a b Ha Hb. rewrite comparefn_severity_desc by assumption.
    f_equal. lia. }
  split; [apply sort_perm |].
  split.
  { apply (StronglySorted_weaken
             (fun a b => - severity (sizeOf a) <= - severity (sizeOf b))).
    - intros a b Hab. lia.
    - apply (sort_sorted _ (fun a => - severity (sizeOf a)) knownSize);
        [apply comparefn_severity_desc | exact Hfiltered]. }
  intros a1 a2 a3 H1 H2 H3.
  assert (knownSize a1) as K1 by (unfold knownSize; rewrite H1; by_evaluation).
  assert (knownSize a2) as K2 by (unfold knownSize; rewrite H2; by_evaluation).
  assert (knownSize a3) as K3 by (unfold knownSize; rewrite H3; by_evaluation).
  cbn [sort insertSorted].
  rewrite (goesAfter_severity_desc _ a2 a3) by assumption.
  rewrite H2, H3. eval_decide. cbn [insertSorted].
  rewrite (goesAfter_severity_desc _ a1 a3) by assumption.
  rewrite H1, H3. eval_decide. reflexivity.
Qed.

Lemma articleSize_sort_by_severity_witness :
  filteredArticles asciiToLowerCase (fun _ _ => 0) EmptyString "all"
                   ByArticleSize Asc
                   [sized "a" "Large"; sized "b" "X-Small"; sized "c" "Medium"]
  = [sized "b" "X-Small"; sized "c" "Medium"; sized "a" "Large"] /\
  filteredArticles asciiToLowerCase (fun _ _ => 0) EmptyString "all"
                   ByArticleSize Desc
                   [sized "a" "Large"; sized "b" "X-Small"; sized "c" "Medium"]
  = [sized "a" "Large"; sized "c" "Medium"; sized "b" "X-Small"].
Proof.
  assert (Forall knownSize
            [sized "a" "Large"; sized "b" "X-Small"; sized "c" "Medium"]) as Hk
    by (repeat constructor; by_evaluation).
  pose proof (articleSize_sort_by_severity asciiToLowerCase (fun _ _ => 0)
                EmptyString "all" _ Hk)
    as (_ & _ & _ & Hthree & _ & _ & _ & _ & _ & Hdown).
  split.
  - exact (Hthree (sized "a" "Large") (sized "b" "X-Small") (sized "c" "Medium")
                  eq_refl eq_refl eq_refl).
  - exact (Hdown (sized "a" "Large") (sized "b" "X-Small") (sized "c" "Medium")
                 eq_refl eq_refl eq_refl).
Defined.

(** *** The filter *)

Lemma keeps_spec (toLowerCase : string -> string)
      (searchTerm filterType : string) (a : Article) :
  keeps toLowerCase searchTerm filterType a = true
  <-> (contains (toLowerCase (title a)) (toLowerCase searchTerm)
       \/ contains (toLowerCase (keywords a)) (toLowerCase searchTerm))
      /\ (filterType = "all" \/ articleType (settings a) = filterType).
Proof.
  unfold keeps, matchesSearch, matchesType.
  rewrite andb_true_iff, !orb_true_iff, !includes_spec, !bool_decide_eq_true.
  reflexivity.
Qed.

Lemma asciiToLowerCase_title_guide :
  includes (asciiToLowerCase "How-to Guide") (asciiToLowerCase "guide") = true /\
  includes (asciiToLowerCase "Recipe") (asciiToLowerCase "guide") = false.
Proof. split; vm_compute; reflexivity. Qed.

(** C8. Whatever the sort field and order, an article is in the displayed
    list exactly when it is in the collection, its lower-cased title or
    its lower-cased keywords contain the lower-cased search term, and the
    filter type is all or equals its stored article type. Searching guide
    over an article titled How-to Guide and one titled Recipe (whose
    keywords do not mention the term) shows exactly the first. *)
Theorem filter_keeps_exactly
        (toLowerCase : string -> string) (localeCompare : string -> string -> Z)
        (searchTerm filterType : string) (sortField : SortField)
        (sortOrder : SortOrder) (articles : list Article) :
  (forall a,
     a ∈ filteredArticles toLowerCase localeCompare searchTerm filterType
                           sortField sortOrder articles
     <-> a ∈ articles
         /\ (contains (toLowerCase (title a)) (toLowerCase searchTerm)
             \/ contains (toLowerCase (keywords a)) (toLowerCase searchTerm))
         /\ (filterType = "all" \/ articleType (settings a) = filterType)) /\
  (forall a1 a2,
     title a1 = "How-to Guide" -> title a2 = "Recipe" ->
     ~ contains (asciiToLowerCase (keywords a2)) "guide" ->
     filteredArticles asciiToLowerCase localeCompare "guide" "all"
                      sortField sortOrder [a1; a2]
     = [a1]).
Proof.
  split.
  - intros a. unfold filteredArticles. rewrite sort_perm.
    rewrite list_elem_of_In, List.filter_In, <- list_elem_of_In.
    now rewrite keeps_spec.
  - intros a1 a2 H1 H2 Hkw. unfold filteredArticles.
    destruct asciiToLowerCase_title_guide as [Hguide Hrecipe].
    assert (keeps asciiToLowerCase "guide" "all" a1 = true) as K1.
    { unfold keeps, matchesSearch, matchesType. rewrite H1, Hguide. reflexivity. }
    assert (keeps asciiToLowerCase "guide" "all" a2 = false) as K2.
    { unfold keeps, matchesSearch. rewrite H2, Hrecipe.
      apply includes_false in Hkw.
      change (asciiToLowerCase "guide") with "guide". now rewrite Hkw. }
    cbn [List.filter]. rewrite K1, K2. reflexivity.
Qed.

Lemma filter_keeps_exactly_witness :
  filteredArticles asciiToLowerCase (fun _ _ => 0) "guide" "all" ByCreatedAt Desc
    [titled "a" "How-to Guide" "howto,steps"; titled "b" "Recipe" "cooking,food"]
  = [titled "a" "How-to Guide" "howto,steps"].
Proof.
  apply (filter_keeps_exactly asciiToLowerCase (fun _ _ => 0) "guide" "all"
                              ByCreatedAt Desc []);
    [reflexivity | reflexivity |].
  apply includes_false. vm_compute. reflexivity.
Defined.

End ArticleHistoryFacts.

(* ===================================================================== *)
(** ** The generate operation: generation, then persistence               *)
(* ===================================================================== *)

Module GenerateRouteFacts.
Import Js JsFacts Schema Http PromptBuilder GenerateRoute Scenario.

Lemma isSuccess_json_Generated (articleId articleTitle text : string)
      (st : ArticleSettings) :
  isSuccess (json (Generated articleId articleTitle text st)).
Proof. now exists articleId, articleTitle, text, st. Qed.

Lemma not_isSuccess_status (resp : Response) :
  status resp <> 200 -> ~ isSuccess resp.
Proof. intros Hst (i & t & c & st & ->). now apply Hst. Qed.

Lemma catchPOST_not_success (e : thrown) : ~ isSuccess (catchPOST e).
Proof.
  apply not_isSuccess_status. destruct e as [issues|errorProp codeProp]; simpl.
  - discriminate.
  - repeat case_bool_decide; simpl; discriminate.
Qed.

Lemma truthyString_true (text : string) :
  truthyString text = true <-> text <> EmptyString.
Proof.
  unfold truthyString. rewrite negb_true_iff, bool_decide_eq_false. reflexivity.
Qed.

Lemma contentOf_Some (c : option string) (text : string) :
  contentOf c = Some text -> c = Some text /\ text <> EmptyString.
Proof.
  unfold contentOf. destruct c as [t|]; [| discriminate].
  destruct (truthyString t) eqn:Ht; [| discriminate].
  apply truthyString_true in Ht. intros [= ->]. now split.
Qed.

Lemma dbInsert_Return (fault : option thrown) (violation : thrown)
      (db db' : Db) (row : Article) :
  dbInsert fault violation db row = Return db' <->
  fault = None /\ db !! id row = None /\ db' = <[id row := row]> db.
Proof.
  unfold dbInsert. destruct fault as [e|].
  - split; [discriminate | intros [? _]; discriminate].
  - destruct (db !! id row) as [old|].
    + split; [discriminate | intros (_ & ? & _); discriminate].
    + split; [intros [= <-]; now repeat split | intros (_ & _ & ->); reflexivity].
Qed.

(** The only way through [POST] that ends in success: the session names a
    user, the body validates, a prompt is built, the generation returns a
    non-empty text, and the row with that text is inserted. *)
Lemma POST_success_inv (r : Run) (db db' : Db) (resp : Response) :
  POST r db = (resp, db') -> isSuccess resp ->
  exists uid data prompt text,
    getSession r = Return (Some uid) /\ uid <> EmptyString /\
    requestJson r = Return data /\ schemaOk data = true /\
    buildArticlePrompt data = Return prompt /\
    create r prompt (getMaxTokens (articleSize (pSettings data)))
      = Return (Some text) /\
    text <> EmptyString /\
    let row := mkArticle (generateId r) uid (pTitle data) text (pKeywords data)
                         (pSettings data) (now1 r) (now2 r) in
    dbInsert (dbFault r) (uniqueViolation r) db row = Return db' /\
    resp = json (Generated (generateId r) (pTitle data) text (pSettings data)).
Proof.
  unfold POST. destruct (tryPOST r db) as [[resp0 db0]|e] eqn:Htry.
  2:{ intros [= <- <-] Hs. now apply catchPOST_not_success in Hs. }
  intros [= -> ->] Hs. revert Htry. unfold tryPOST, bind.
  destruct (getSession r) as [session|]; [| discriminate].
  unfold sessionUser.
  destruct session as [uid|].
  2:{ intros [= <- <-]. exfalso. revert Hs. now apply not_isSuccess_status. }
  destruct (truthyString uid) eqn:Huid.
  2:{ intros [= <- <-]. exfalso. revert Hs. now apply not_isSuccess_status. }
  apply truthyString_true in Huid.
  destruct (requestJson r) as [data|]; [| discriminate].
  unfold parse. destruct (schemaOk data) eqn:Hschema; [| discriminate].
  destruct (newOpenAI r) as [[]|]; [| discriminate].
  destruct (OPENAI_API_KEY r) as [apiKey|].
  2:{ intros [= <- <-]. exfalso. revert Hs. now apply not_isSuccess_status. }
  destruct (negb (truthyString apiKey)).
  { intros [= <- <-]. exfalso. revert Hs. now apply not_isSuccess_status. }
  destruct (buildArticlePrompt data) as [prompt|[]] eqn:Hbuild; simpl;
    [| discriminate].
  destruct (create r prompt (getMaxTokens (articleSize (pSettings data))))
    as [generated|] eqn:Hcreate; [| discriminate].
  destruct (contentOf generated) as [text|] eqn:Hcontent.
  2:{ intros [= <- <-]. exfalso. revert Hs. now apply not_isSuccess_status. }
  apply contentOf_Some in Hcontent as [-> Htext].
  destruct (dbInsert _ _ db _) as [db1|] eqn:Hins; [| discriminate].
  intros [= <- <-]. exists uid, data, prompt, text.
  repeat split; assumption || reflexivity.
Qed.

(** A request that is not reported as success leaves the table as it
    was. *)
Lemma POST_no_success_no_insert (r : Run) (db db' : Db) (resp : Response) :
  POST r db = (resp, db') -> ~ isSuccess resp -> db' = db.
Proof.
  unfold POST. destruct (tryPOST r db) as [[resp0 db0]|e] eqn:Htry.
  2:{ now intros [= <- <-] _. }
  intros [= -> ->] Hs. revert Htry. unfold tryPOST, bind.
  repeat (case_match; try discriminate); try (now intros [= <- <-]).
  intros [= <- <-]. exfalso. apply Hs, isSuccess_json_Generated.
Qed.

Lemma isSuccess_dec (resp : Response) : isSuccess resp \/ ~ isSuccess resp.
Proof.
  destruct resp as [st [i t c stg|a| |msg|msg details]];
    try (right; intros (? & ? & ? & ? & [=]); fail).
  destruct (decide (st = 200)) as [->|Hne].
  - left. apply isSuccess_json_Generated.
  - right. now apply not_isSuccess_status.
Qed.

(** C3. For every run of the generate operation, with [resp] the response
    and [db'] the table afterwards:
    - [resp] is a success only when the generation returned a non-empty
      text and the insertion of the row carrying that text completed;
    - a row that is in the table afterwards and was not there before
      carries the non-empty text that the generation returned, and the
      run is a success;
    - when the insertion of a row under the generated id fails, [resp] is
      not a success and the table is unchanged. *)
Theorem generate_success_requires_both
        (r : Run) (db db' : Db) (resp : Response) :
  POST r db = (resp, db') ->
  (isSuccess resp ->
     exists prompt budget text row,
       create r prompt budget = Return (Some text) /\ text <> EmptyString /\
       content row = text /\ id row = generateId r /\
       dbInsert (dbFault r) (uniqueViolation r) db row = Return db' /\
       db' !! id row = Some row /\
       payload resp = Generated (id row) (title row) text (settings row)) /\
  (forall k row,
     db' !! k = Some row -> db !! k <> Some row ->
     isSuccess resp /\ content row <> EmptyString /\
     exists prompt budget, create r prompt budget = Return (Some (content row))) /\
  (forall row e,
     id row = generateId r -> dbInsert (dbFault r) (uniqueViolation r) db row = Throw e ->
     ~ isSuccess resp /\ db' = db).
Proof.
  intros HPOST.
  assert (isSuccess resp ->
          exists prompt budget text row,
            create r prompt budget = Return (Some text) /\ text <> EmptyString /\
            content row = text /\ id row = generateId r /\
            dbInsert (dbFault r) (uniqueViolation r) db row = Return db' /\
            db' !! id row = Some row /\
            payload resp = Generated (id row) (title row) text (settings row))
    as Hsuccess.
  { intros Hs.
    destruct (POST_success_inv r db db' resp HPOST Hs)
      as (uid & data & prompt & text & _ & _ & _ & _ & _ & Hcreate & Htext
          & Hins & ->).
    exists prompt, (getMaxTokens (articleSize (pSettings data))), text,
      (mkArticle (generateId r) uid (pTitle data) text (pKeywords data)
                 (pSettings data) (now1 r) (now2 r)).
    split; [exact Hcreate |].
    split; [exact Htext |]. split; [reflexivity |]. split; [reflexivity |].
    split; [exact Hins |]. split; [| reflexivity].
    apply dbInsert_Return in Hins as (_ & _ & ->). apply lookup_insert_eq. }
  split; [exact Hsuccess |]. split.
  - intros k row Hafter Hbefore.
    destruct (isSuccess_dec resp) as [Hs|Hs].
    2:{ rewrite (POST_no_success_no_insert r db db' resp HPOST Hs) in Hafter.
        contradiction. }
    split; [exact Hs |].
    destruct (Hsuccess Hs)
      as (prompt & budget & text & row0 & Hcreate & Htext & Hcontent & _
          & Hins & _ & _).
    apply dbInsert_Return in Hins as (_ & _ & ->).
    destruct (decide (id row0 = k)) as [<-|Hne].
    + rewrite lookup_insert_eq in Hafter. injection Hafter as <-.
      rewrite Hcontent. split; [exact Htext |]. now exists prompt, budget.
    + rewrite lookup_insert_ne in Hafter by assumption. contradiction.
  - intros row e Hid Hfail.
    assert (~ isSuccess resp) as Hs.
    { intros Hs.
      destruct (Hsuccess Hs) as (_ & _ & _ & row0 & _ & _ & _ & Hid0 & Hins & _).
      apply dbInsert_Return in Hins as (Hfault & Hfree & _).
      unfold dbInsert in Hfail. rewrite Hfault, Hid, <- Hid0, Hfree in Hfail.
      discriminate. }
    split; [exact Hs |]. exact (POST_no_success_no_insert r db db' resp HPOST Hs).
Qed.

Lemma generate_success_requires_both_witness :
  (exists prompt budget text row,
     create (coffeeRun (Some "Generated text") None) prompt budget
       = Return (Some text) /\
     text = "Generated text" /\ content row = text /\
     (<["art-1" := coffeeRow "Generated text"]> ∅ : Db) !! id row = Some row) /\
  ~ isSuccess
      (jsonStatus (Error "Failed to generate article. Please try again.") 500).
Proof.
  split.
  - assert (POST (coffeeRun (Some "Generated text") None) ∅
            = (json (Generated "art-1" "Best Coffee" "Generated text"
                        (pSettings (coffee "None" "None" "No AI Words Removal"))),
               <["art-1" := coffeeRow "Generated text"]> ∅)) as Hrun
      by (vm_compute; reflexivity).
    destruct (generate_success_requires_both _ _ _ _ Hrun) as (Hsuccess & _ & _).
    destruct (Hsuccess (isSuccess_json_Generated _ _ _ _))
      as (prompt & budget & text & row & Hcreate & _ & Hcontent & _ & _ & Hrow & _).
    exists prompt, budget, text, row.
    split; [exact Hcreate |]. split; [now injection Hcreate | now split].
  - assert (POST (coffeeRun (Some "Generated text") (Some (Other None None))) ∅
            = (jsonStatus (Error "Failed to generate article. Please try again.") 500,
               ∅)) as Hrun
      by (vm_compute; reflexivity).
    destruct (generate_success_requires_both _ _ _ _ Hrun) as (_ & _ & Hfail).
    apply (Hfail (coffeeRow "x") (Other None None)); reflexivity.
Defined.

End GenerateRouteFacts.

(* ===================================================================== *)
(** ** Reading and deleting one article                                   *)
(* ===================================================================== *)

Module ArticleRouteFacts.
Import Js JsFacts Schema Http ArticleRoute Scenario.

Section Requester.
Variables (uid articleId : string) (db : Db).
Hypothesis signedIn : uid <> EmptyString.
Hypothesis hasId : articleId <> EmptyString.

Lemma sessionUser_signedIn : sessionUser (Some uid) = Some uid.
Proof.
  unfold sessionUser, truthyString.
  now rewrite bool_decide_eq_false_2.
Qed.

Lemma truthy_articleId : negb (truthyString articleId) = false.
Proof.
  unfold truthyString. now rewrite bool_decide_eq_false_2.
Qed.

(** What [GET] answers depends on the table and the id alone. *)
Lemma GET_by_id_alone :
  GET (requestOf uid) articleId db
  = match db !! articleId with
    | Some row => json (ArticleJson row)
    | None =>
        jsonStatus
          (Error "Article not found or you don't have permission to access it") 404
    end.
Proof.
  unfold GET, tryGET, requestOf, bind. cbn [getSession dbFault].
  rewrite sessionUser_signedIn, truthy_articleId.
  unfold dbSelectById. now destruct (db !! articleId).
Qed.

(** So does what [DELETE] answers and removes. *)
Lemma DELETE_by_id_alone :
  DELETE (requestOf uid) articleId db
  = match db !! articleId with
    | Some row => (json SuccessTrue, delete articleId db)
    | None =>
        (jsonStatus
           (Error "Article not found or you don't have permission to delete it") 404,
         db)
    end.
Proof.
  unfold DELETE, tryDELETE, requestOf, bind. cbn [getSession dbFault].
  rewrite sessionUser_signedIn, truthy_articleId.
  unfold dbDeleteById. now destruct (db !! articleId).
Qed.

(** For the owner and for a missing id the handlers agree with the
    contract. *)
Lemma GET_owner (row : Article) :
  ownedBy db articleId uid = Some row ->
  GET (requestOf uid) articleId db = json (ArticleJson row).
Proof.
  rewrite GET_by_id_alone. unfold ownedBy.
  destruct (db !! articleId) as [r|]; [| discriminate].
  case_bool_decide; [| discriminate]. now intros [= ->].
Qed.

Lemma GET_missing :
  db !! articleId = None ->
  status (GET (requestOf uid) articleId db) = 404.
Proof. rewrite GET_by_id_alone. now intros ->. Qed.

Lemma DELETE_owner (row : Article) :
  ownedBy db articleId uid = Some row ->
  DELETE (requestOf uid) articleId db = (json SuccessTrue, delete articleId db).
Proof.
  rewrite DELETE_by_id_alone. unfold ownedBy.
  destruct (db !! articleId) as [r|]; [| discriminate].
  now case_bool_decide.
Qed.

Lemma DELETE_missing :
  db !! articleId = None ->
  DELETE (requestOf uid) articleId db
  = (jsonStatus
       (Error "Article not found or you don't have permission to delete it") 404,
     db).
Proof. rewrite DELETE_by_id_alone. now intros ->. Qed.

End Requester.

(** C1, at a foreign request: the table holds one article, of user alice,
    and user bob asks for it by its id. The contract gives bob nothing,
    yet [GET] returns alice's article to bob, and [DELETE] reports
    success to bob and removes the row. *)
Theorem foreign_owner_reads_and_deletes :
  ownedBy aliceDb "a1" "bob" = None /\
  userId aliceArticle <> "bob" /\
  GET (requestOf "bob") "a1" aliceDb = json (ArticleJson aliceArticle) /\
  fst (DELETE (requestOf "bob") "a1" aliceDb) = json SuccessTrue /\
  snd (DELETE (requestOf "bob") "a1" aliceDb) !! "a1" = None.
Proof.
  split; [vm_compute; reflexivity |].
  split; [discriminate |].
  split; [vm_compute; reflexivity |].
  split; vm_compute; reflexivity.
Qed.

End ArticleRouteFacts.

(* ===================================================================== *)
(** ** The generate route: validation, statuses, stored rows              *)
(* ===================================================================== *)

Module GenerateRouteMore.
Import Js JsFacts Schema Http PromptBuilder GenerateRoute Scenario Stored
       PromptBuilderFacts GenerateRouteFacts.

Lemma schemaOk_fields (d : PromptData) :
  schemaOk d = true ->
  let s := pSettings d in
  (1 <= String.length (pTitle d) <= 200)%nat /\
  (1 <= String.length (pKeywords d) <= 500)%nat /\
  articleType s ∈ articleTypes /\ articleSize s ∈ articleSizes /\
  tone s ∈ tones /\ pointOfView s ∈ pointsOfView /\
  readability s ∈ readabilities /\ aiCleaning s ∈ aiCleanings /\
  (1 <= String.length (language s))%nat.
Proof.
  unfold schemaOk. rewrite !andb_true_iff, !bool_decide_eq_true. tauto.
Qed.

(** A body that passes the schema always compiles, and its token budget
    is one of the four numbers of the table. *)
Theorem validated_request_compiles (d : PromptData) :
  schemaOk d = true ->
  (exists prompt, buildArticlePrompt d = Return prompt) /\
  (exists budget,
     getMaxTokens (articleSize (pSettings d)) = Val budget /\
     budget ∈ [2000; 4000; 6000; 8000]).
Proof.
  intros Hok. apply schemaOk_fields in Hok as (_ & _ & _ & Hsize & _).
  split; [now apply build_total_on_sizes |].
  unfold articleSizes in Hsize.
  each_member Hsize; eexists; (split; [vm_compute; reflexivity |]);
    by_evaluation.
Qed.

Lemma validated_request_compiles_witness :
  exists prompt,
    buildArticlePrompt (coffee "None" "None" "No AI Words Removal") = Return prompt.
Proof.
  apply (validated_request_compiles (coffee "None" "None" "No AI Words Removal")).
  vm_compute. reflexivity.
Defined.

Lemma catchPOST_shape (e : thrown) :
  status (catchPOST e) ∈ [400; 409; 500; 503] /\
  exists msg, Hooks.errorField (payload (catchPOST e)) = Some msg /\ msg <> EmptyString.
Proof.
  destruct e as [issues|errorProp codeProp]; simpl.
  - split; [by_evaluation | eexists; split; [reflexivity | discriminate]].
  - repeat case_bool_decide; simpl;
      (split; [by_evaluation | eexists; split; [reflexivity | discriminate]]).
Qed.

Lemma POST_status_cases (r : Run) (db : Db) :
  let resp := fst (POST r db) in
  status resp ∈ [200; 400; 401; 409; 500; 503] /\
  (status resp = 200 <-> isSuccess resp) /\
  (status resp <> 200 ->
   exists msg, Hooks.errorField (payload resp) = Some msg /\ msg <> EmptyString).
Proof.
  cbv zeta. destruct (isSuccess_dec (fst (POST r db))) as [Hs|Hs].
  - destruct Hs as (i & t & c & st & ->). simpl.
    split; [by_evaluation |]. split.
    + split; [intros _; now exists i, t, c, st | reflexivity].
    + intros Hne. now destruct Hne.
  - assert (status (fst (POST r db)) ∈ [400; 401; 500; 409; 503] /\
            exists msg, Hooks.errorField (payload (fst (POST r db))) = Some msg
                        /\ msg <> EmptyString) as [Hst Hmsg].
    { revert Hs. unfold POST.
      destruct (tryPOST r db) as [[resp0 db0]|e] eqn:Htry; simpl.
      2:{ intros _. destruct (catchPOST_shape e) as [Hin Hmsg].
          split; [| exact Hmsg]. revert Hin.
          rewrite !elem_of_cons. tauto. }
      revert Htry. unfold tryPOST, bind.
      repeat (case_match; try discriminate);
        intros [= <- <-] Hs; simpl;
        try (split; [by_evaluation | eexists; split; [reflexivity | discriminate]]).
      exfalso. apply Hs, isSuccess_json_Generated. }
    split; [revert Hst; rewrite !elem_of_cons; tauto |].
    split.
    + split; [| contradiction].
      intros H200. rewrite H200 in Hst. exfalso. revert Hst.
      rewrite !elem_of_cons, elem_of_nil. intuition discriminate.
    + intros _. exact Hmsg.
Qed.

(** Every run of the route answers with one of six statuses; the status
    is 200 exactly for the success body, and every other response
    carries a non-empty error text. *)
Theorem POST_statuses (r : Run) (db : Db) :
  let resp := fst (POST r db) in
  status resp ∈ [200; 400; 401; 409; 500; 503] /\
  (status resp = 200 <-> isSuccess resp) /\
  (status resp <> 200 ->
   exists msg, Hooks.errorField (payload resp) = Some msg /\ msg <> EmptyString).
Proof. exact (POST_status_cases r db). Qed.

(** A signed-in request whose body fails the schema is answered 400 with
    the issues, and nothing is generated or stored: the answer does not
    depend on the generation service or the storage. *)
Theorem POST_invalid_body (r : Run) (db : Db) (uid : string) (raw : PromptData) :
  getSession r = Return (Some uid) -> uid <> EmptyString ->
  requestJson r = Return raw -> schemaOk raw = false ->
  POST r db
  = (jsonStatus (ErrorDetails "Invalid request data" (zodIssues r)) 400, db).
Proof.
  intros Hsession Huid Hjson Hschema. unfold POST, tryPOST, bind, parse.
  rewrite Hsession. unfold sessionUser.
  apply truthyString_true in Huid. rewrite Huid, Hjson, Hschema. reflexivity.
Qed.

Lemma POST_invalid_body_witness :
  fst (POST (mkRun (Return (Some "u1")) (Return (plain "Huge" "None" "en")) []
                   (Return tt) (Some "sk-test")
                   (fun _ _ => Return (Some "text")) "art-1" 0 0 None
                   (Other None None)) ∅)
  = jsonStatus (ErrorDetails "Invalid request data" []) 400.
Proof.
  rewrite (POST_invalid_body _ ∅ "u1" (plain "Huge" "None" "en"));
    [reflexivity | reflexivity | discriminate | reflexivity |].
  vm_compute. reflexivity.
Defined.

Section Generated.
(** A run in which everything before the insertion goes well. *)
Variables (r : Run) (db : Db) (uid apiKey text : string) (data : PromptData).
Hypothesis session_ok : getSession r = Return (Some uid).
Hypothesis uid_ok : uid <> EmptyString.
Hypothesis body_ok : requestJson r = Return data.
Hypothesis schema_ok : schemaOk data = true.
Hypothesis client_ok : newOpenAI r = Return tt.
Hypothesis key_ok : OPENAI_API_KEY r = Some apiKey.
Hypothesis key_truthy : apiKey <> EmptyString.
Hypothesis generation_ok :
  forall prompt,
    buildArticlePrompt data = Return prompt ->
    create r prompt (getMaxTokens (articleSize (pSettings data)))
    = Return (Some text).
Hypothesis text_ok : text <> EmptyString.

Lemma POST_reaches_insert :
  POST r db
  = match dbInsert (dbFault r) (uniqueViolation r) db (articleData r uid text data) with
    | Return db' =>
        (json (Generated (generateId r) (pTitle data) text (pSettings data)), db')
    | Throw e => (catchPOST e, db)
    end.
Proof.
  pose proof (schemaOk_fields data schema_ok) as (_ & _ & _ & Hsize & _).
  destruct (build_total_on_sizes data Hsize) as [prompt Hp].
  unfold POST, tryPOST, bind, parse.
  rewrite session_ok. unfold sessionUser.
  apply truthyString_true in uid_ok as ->.
  rewrite body_ok, schema_ok, client_ok, key_ok.
  apply truthyString_true in key_truthy as ->. simpl negb. cbv iota.
  rewrite Hp. simpl ofExn. cbv iota beta.
  rewrite (generation_ok prompt Hp). unfold contentOf.
  apply truthyString_true in text_ok as ->.
  change (mkArticle _ _ _ _ _ _ _ _) with (articleData r uid text data).
  now destruct (dbInsert (dbFault r) (uniqueViolation r) db (articleData r uid text data)).
Qed.

(** When the generated id is already taken, the request is answered by
    the [catch] block on what the driver threw, and the table, with the
    row that holds the id, stays as it is: the answer is 409 when that
    value itself carries code 23505 (and no API error type), and the
    generic 500 when it carries neither an [error] nor a [code]
    property, as an error that wraps its cause does. *)
Theorem POST_duplicate_id (old : Article) :
  dbFault r = None -> db !! generateId r = Some old ->
  POST r db = (catchPOST (uniqueViolation r), db) /\
  (forall errorProp,
     uniqueViolation r = Other errorProp (Some "23505") ->
     errorProp <> Some (Some "insufficient_quota") ->
     errorProp <> Some (Some "invalid_request_error") ->
     fst (POST r db) = jsonStatus (Error "Duplicate article detected.") 409) /\
  (uniqueViolation r = Other None None ->
   fst (POST r db)
   = jsonStatus (Error "Failed to generate article. Please try again.") 500).
Proof.
  intros Hfault Hold.
  assert (POST r db = (catchPOST (uniqueViolation r), db)) as HPOST.
  { rewrite POST_reaches_insert.
    unfold dbInsert. rewrite Hfault. simpl id. now rewrite Hold. }
  split; [exact HPOST |]. rewrite HPOST. simpl fst. split.
  - intros errorProp -> Hquota Hinvalid. unfold catchPOST.
    rewrite !bool_decide_eq_false_2 by assumption.
    now rewrite bool_decide_eq_true_2.
  - now intros ->.
Qed.

(** When the id is free and the storage accepts the row, the request
    succeeds and exactly the new row is added. *)
Theorem POST_stores :
  dbFault r = None -> db !! generateId r = None ->
  POST r db
  = (json (Generated (generateId r) (pTitle data) text (pSettings data)),
     <[generateId r := (articleData r uid text data)]> db).
Proof.
  intros Hfault Hfree. rewrite POST_reaches_insert.
  unfold dbInsert. rewrite Hfault. simpl id. now rewrite Hfree.
Qed.

End Generated.

Lemma POST_duplicate_id_witness :
  POST (coffeeRunWith (Some "Generated text") None (Other None (Some "23505")))
       (<["art-1" := coffeeRow "old"]> ∅)
  = (jsonStatus (Error "Duplicate article detected.") 409,
     <["art-1" := coffeeRow "old"]> ∅) /\
  POST (coffeeRunWith (Some "Generated text") None (Other None None))
       (<["art-1" := coffeeRow "old"]> ∅)
  = (jsonStatus (Error "Failed to generate article. Please try again.") 500,
     <["art-1" := coffeeRow "old"]> ∅).
Proof.
  split.
  - eapply proj1.
    apply (POST_duplicate_id
             (coffeeRunWith (Some "Generated text") None
                            (Other None (Some "23505")))
             (<["art-1" := coffeeRow "old"]> ∅) "u1" "sk-test"
             "Generated text" (coffee "None" "None" "No AI Words Removal"))
      with (old := coffeeRow "old");
      reflexivity || discriminate.
  - eapply proj1.
    apply (POST_duplicate_id
             (coffeeRunWith (Some "Generated text") None (Other None None))
             (<["art-1" := coffeeRow "old"]> ∅) "u1" "sk-test"
             "Generated text" (coffee "None" "None" "No AI Words Removal"))
      with (old := coffeeRow "old");
      reflexivity || discriminate.
Defined.

Lemma POST_stores_witness :
  POST (coffeeRun (Some "Generated text") None) ∅
  = (json (Generated "art-1" "Best Coffee" "Generated text"
              (pSettings (coffee "None" "None" "No AI Words Removal"))),
     <["art-1" := coffeeRow "Generated text"]> ∅).
Proof.
  apply (POST_stores (coffeeRun (Some "Generated text") None) ∅
           "u1" "sk-test" "Generated text"
           (coffee "None" "None" "No AI Words Removal"));
    reflexivity || discriminate.
Defined.

End GenerateRouteMore.

(* ===================================================================== *)
(** ** The article routes: listing, deleting, and the stored article      *)
(* ===================================================================== *)

Module ArticleRoutesMore.
Import Js JsFacts Schema Http PromptBuilder Scenario Stored
       ArticleHistoryFacts GenerateRouteFacts ArticleRouteFacts.

Lemma newestFirst_key (a b : Article) :
  (fun _ : Article => True) a -> (fun _ : Article => True) b ->
  ArticlesRoute.newestFirst a b = Some (- createdAt a - - createdAt b).
Proof. intros _ _. unfold ArticlesRoute.newestFirst. f_equal. lia. Qed.

Lemma list_rows (uid : string) (db : Db) :
  uid <> EmptyString ->
  exists rows,
    ArticlesRoute.GET (requestOf uid) db
    = ArticlesRoute.mkListResponse 200 (ArticlesRoute.Articles rows) /\
    (forall row,
       row ∈ rows <-> (exists k, db !! k = Some row) /\ userId row = uid) /\
    StronglySorted (fun a b => createdAt b <= createdAt a) rows.
Proof.
  intros Huid. eexists. split.
  { unfold ArticlesRoute.GET, ArticlesRoute.tryGET, requestOf, bind.
    cbn [ArticleRoute.getSession ArticleRoute.dbFault].
    rewrite (sessionUser_signedIn uid Huid). reflexivity. }
  split.
  - intros row. rewrite sort_perm.
    rewrite list_elem_of_In, List.filter_In, <- list_elem_of_In.
    rewrite bool_decide_eq_true, list_elem_of_fmap. split.
    + intros [[[k row'] [-> Hin]] Hu]. split; [| exact Hu].
      exists k. now apply elem_of_map_to_list.
    + intros [[k Hk] Hu]. split; [| exact Hu].
      exists (k, row). split; [reflexivity |]. now apply elem_of_map_to_list.
  - apply (StronglySorted_weaken (fun a b => - createdAt a <= - createdAt b)).
    + intros a b Hab. lia.
    + apply (sort_sorted ArticlesRoute.newestFirst
               (fun a => - createdAt a) (fun _ => True) newestFirst_key).
      apply Forall_forall. intros; exact I.
Qed.



(** The three conjuncts of a request that is refused. *)
Ltac table_unchanged :=
  split; [intros; reflexivity |];
  split; [intros Hst; discriminate Hst | intros _; reflexivity].

(** Whatever the session and the storage do, [DELETE] touches no row but
    the one under the given id; answered 200 the row is gone, answered
    otherwise the table is as it was. *)
Theorem DELETE_frame (r : ArticleRoute.Run) (articleId : string) (db : Db) :
  let resp := fst (ArticleRoute.DELETE r articleId db) in
  let db' := snd (ArticleRoute.DELETE r articleId db) in
  (forall k, k <> articleId -> db' !! k = db !! k) /\
  (status resp = 200 ->
     is_Some (db !! articleId) /\ db' = delete articleId db) /\
  (status resp <> 200 -> db' = db).
Proof.
  cbv zeta. unfold ArticleRoute.DELETE, ArticleRoute.tryDELETE, bind,
    ArticleRoute.dbDeleteById.
  destruct (ArticleRoute.getSession r) as [session|e]; simpl;
    [| table_unchanged].
  destruct (sessionUser session) as [uid|]; simpl; [| table_unchanged].
  destruct (negb (truthyString articleId)); simpl; [table_unchanged |].
  destruct (ArticleRoute.dbFault r) as [e|]; simpl; [table_unchanged |].
  destruct (db !! articleId) as [row|] eqn:Hrow; simpl; [| table_unchanged].
  split; [intros k Hk; now apply lookup_delete_ne |].
  split; [intros _; split; [now exists row | reflexivity] |].
  intros Hne. now destruct Hne.
Qed.

(** Once an article is deleted, a second [DELETE] of its id and a [GET]
    of its id are both answered 404, for any signed-in user. *)
Theorem DELETE_twice (uid other articleId : string) (db : Db) (row : Article) :
  uid <> EmptyString -> other <> EmptyString -> articleId <> EmptyString ->
  db !! articleId = Some row ->
  let db' := snd (ArticleRoute.DELETE (requestOf uid) articleId db) in
  fst (ArticleRoute.DELETE (requestOf uid) articleId db) = json SuccessTrue /\
  db' !! articleId = None /\
  status (fst (ArticleRoute.DELETE (requestOf other) articleId db')) = 404 /\
  snd (ArticleRoute.DELETE (requestOf other) articleId db') = db' /\
  status (ArticleRoute.GET (requestOf other) articleId db') = 404.
Proof.
  intros Huid Hother Hid Hrow. cbv zeta.
  rewrite (DELETE_by_id_alone uid articleId db Huid Hid), Hrow. simpl.
  assert (delete articleId db !! articleId = None) as Hgone
    by apply lookup_delete_eq.
  split; [reflexivity |]. split; [exact Hgone |].
  rewrite (DELETE_by_id_alone other articleId _ Hother Hid),
          (GET_by_id_alone other articleId _ Hother Hid), Hgone.
  now repeat split.
Qed.

Lemma DELETE_twice_witness :
  status (fst (ArticleRoute.DELETE (requestOf "alice") "a1"
                 (snd (ArticleRoute.DELETE (requestOf "alice") "a1" aliceDb))))
  = 404.
Proof.
  apply (DELETE_twice "alice" "alice" "a1" aliceDb aliceArticle);
    discriminate || reflexivity.
Defined.

(** Without a signed-in user each of the four handlers answers 401 and
    leaves the table as it is, whatever else the request carries. *)
Theorem unauthorized_everywhere (session : option string) (db : Db) :
  sessionUser session = None ->
  (forall r, GenerateRoute.getSession r = Return session ->
     status (fst (GenerateRoute.POST r db)) = 401 /\
     snd (GenerateRoute.POST r db) = db) /\
  (forall r articleId, ArticleRoute.getSession r = Return session ->
     status (ArticleRoute.GET r articleId db) = 401 /\
     status (fst (ArticleRoute.DELETE r articleId db)) = 401 /\
     snd (ArticleRoute.DELETE r articleId db) = db /\
     ArticlesRoute.GET r db
     = ArticlesRoute.mkListResponse 401 (ArticlesRoute.ListError "Unauthorized")).
Proof.
  intros Hnone. split.
  - intros r Hs. unfold GenerateRoute.POST, GenerateRoute.tryPOST, bind.
    rewrite Hs, Hnone. now split.
  - intros r articleId Hs.
    unfold ArticleRoute.GET, ArticleRoute.tryGET, ArticleRoute.DELETE,
      ArticleRoute.tryDELETE, ArticlesRoute.GET, ArticlesRoute.tryGET, bind.
    rewrite Hs, Hnone. now repeat split.
Qed.

Lemma unauthorized_everywhere_witness :
  status (fst (ArticleRoute.DELETE
                 (ArticleRoute.mkRun (Return (Some EmptyString)) None)
                 "a1" aliceDb)) = 401 /\
  status (fst (GenerateRoute.POST
                 (GenerateRoute.mkRun (Return None)
                    (Return (coffee "None" "None" "No AI Words Removal")) []
                    (Return tt) (Some "sk-test")
                    (fun _ _ => Return (Some "text")) "art-1" 0 0 None
                   (Other None None))
                 aliceDb)) = 401.
Proof.
  split.
  - apply (unauthorized_everywhere (Some EmptyString) aliceDb);
      reflexivity.
  - apply (unauthorized_everywhere None aliceDb); reflexivity.
Defined.

(** What a successful [POST] stored is what the owner reads back: [GET]
    of the returned id gives a row with the title, text and settings of
    the response, and the owner's list contains it. *)
Theorem POST_then_GET (r : GenerateRoute.Run) (db db' : Db) (resp : Response) :
  GenerateRoute.POST r db = (resp, db') -> GenerateRoute.isSuccess resp ->
  GenerateRoute.generateId r <> EmptyString ->
  exists uid row rows,
    GenerateRoute.getSession r = Return (Some uid) /\
    userId row = uid /\
    payload resp = Generated (id row) (title row) (content row) (settings row) /\
    ArticleRoute.GET (requestOf uid) (id row) db' = json (ArticleJson row) /\
    ArticlesRoute.GET (requestOf uid) db'
    = ArticlesRoute.mkListResponse 200 (ArticlesRoute.Articles rows) /\
    row ∈ rows.
Proof.
  intros HPOST Hs Hid.
  destruct (POST_success_inv r db db' resp HPOST Hs)
    as (uid & data & prompt & text & Hsession & Huid & _ & _ & _ & _ & _ & Hins & ->).
  apply dbInsert_Return in Hins as (_ & _ & ->). simpl in *.
  destruct (list_rows uid
              (<[GenerateRoute.generateId r := articleData r uid text data]> db) Huid)
    as (rows & Hlist & Hrows & _).
  exists uid, (articleData r uid text data), rows.
  split; [exact Hsession |]. split; [reflexivity |]. split; [reflexivity |].
  split.
  { simpl id. rewrite (GET_by_id_alone uid _ _ Huid Hid).
    now rewrite lookup_insert_eq. }
  split; [exact Hlist |].
  apply Hrows. split; [| reflexivity].
  exists (GenerateRoute.generateId r). apply lookup_insert_eq.
Qed.

Lemma POST_then_GET_witness :
  exists row,
    ArticleRoute.GET (requestOf "u1") "art-1"
      (snd (GenerateRoute.POST (coffeeRun (Some "Generated text") None) ∅))
    = json (ArticleJson row) /\
    content row = "Generated text".
Proof.
  destruct (POST_then_GET (coffeeRun (Some "Generated text") None) ∅
              (<["art-1" := coffeeRow "Generated text"]> ∅)
              (json (Generated "art-1" "Best Coffee" "Generated text"
                       (pSettings (coffee "None" "None" "No AI Words Removal")))))
    as (uid & row & rows & Hsession & Hu & Hpayload & Hget & _);
    [vm_compute; reflexivity | apply isSuccess_json_Generated | discriminate |].
  injection Hsession as <-. injection Hpayload as Hi _ Hc _.
  exists row. split; [| now symmetry].
  rewrite Hi. exact Hget.
Defined.

End ArticleRoutesMore.

(* ===================================================================== *)
(** ** The client: mutations and the page                                 *)
(* ===================================================================== *)

Module ClientFacts.
Import Js JsFacts Schema Http Scenario Hooks Page
       GenerateRouteFacts GenerateRouteMore ArticleRoutesMore.

(** The generate mutation resolves exactly when the route stored the
    article; when it rejects, the table is as it was and the message of
    the thrown [Error], which the toast shows, is the non-empty error
    text of the route. *)
Theorem generate_mutation_follows_route (r : GenerateRoute.Run) (db : Db) :
  let resp := fst (GenerateRoute.POST r db) in
  let db' := snd (GenerateRoute.POST r db) in
  match generateMutationFn resp with
  | Return data =>
      GenerateRoute.isSuccess resp /\ data = payload resp /\
      exists row, db' !! GenerateRoute.generateId r = Some row /\
                  content row <> EmptyString
  | Throw message =>
      db' = db /\ message <> EmptyString /\
      errorField (payload resp) = Some message /\
      generateErrorToast message = message
  end.
Proof.
  cbv zeta. destruct (POST_status_cases r db) as (Hin & H200 & Herr).
  destruct (GenerateRoute.POST r db) as [resp db'] eqn:HPOST. simpl in *.
  unfold generateMutationFn, ok.
  destruct (decide (status resp = 200)) as [Hst|Hst].
  - rewrite Hst. simpl. apply H200 in Hst as Hs.
    split; [exact Hs |]. split; [reflexivity |].
    destruct (POST_success_inv r db db' resp HPOST Hs)
      as (uid & data & prompt & text & _ & _ & _ & _ & _ & _ & Htext & Hins & _).
    apply dbInsert_Return in Hins as (_ & _ & ->).
    eexists. split; [apply lookup_insert_eq | exact Htext].
  - assert (bool_decide (200 <= status resp <= 299) = false) as ->.
    { apply bool_decide_eq_false. revert Hin Hst.
      rewrite !elem_of_cons, elem_of_nil. lia. }
    destruct (Herr Hst) as (msg & Hmsg & Hne).
    rewrite Hmsg. unfold generateErrorToast, orText.
    apply truthyString_true in Hne as Htruthy. rewrite Htruthy.
    cbv beta iota. rewrite Htruthy.
    split.
    { apply (POST_no_success_no_insert r db db' resp HPOST).
      intros Hs. now apply H200 in Hs. }
    split; [exact Hne |]. split; reflexivity.
Qed.

(** The delete mutation resolves exactly when the route removed the row
    under the id; when it rejects, no row was removed. *)
Theorem delete_mutation_follows_route
        (r : ArticleRoute.Run) (articleId : string) (db : Db) :
  let resp := fst (ArticleRoute.DELETE r articleId db) in
  let db' := snd (ArticleRoute.DELETE r articleId db) in
  match deleteMutationFn resp with
  | Return data =>
      data = SuccessTrue /\ is_Some (db !! articleId) /\
      db' = delete articleId db
  | Throw message => db' = db /\ message = "Failed to delete article"
  end.
Proof.
  cbv zeta. unfold deleteMutationFn, ok, ArticleRoute.DELETE,
    ArticleRoute.tryDELETE, bind, ArticleRoute.dbDeleteById.
  destruct (ArticleRoute.getSession r) as [session|e]; simpl; [| now split].
  destruct (sessionUser session) as [uid|]; simpl; [| now split].
  destruct (negb (truthyString articleId)); simpl; [now split |].
  destruct (ArticleRoute.dbFault r) as [e|]; simpl; [now split |].
  destruct (db !! articleId) as [row|] eqn:Hrow; simpl; [| now split].
  split; [reflexivity |]. split; [now exists row | reflexivity].
Qed.

(** *** The page *)

Lemma step_keeps_view_selected (st : Running) (e : event) :
  (activeTab (page st) = "view" -> is_Some (selectedArticle (page st))) ->
  activeTab (page (step st e)) = "view" ->
  is_Some (selectedArticle (page (step st e))).
Proof.
  intros Hinv. destruct e as [mutation|article|articleId|n mutation|value]; simpl.
  - destruct mutation; simpl; [discriminate | exact Hinv].
  - intros _. now exists article.
  - exact Hinv.
  - destruct (pendingDeletes st !! n) as [[articleId captured]|]; simpl;
      [| exact Hinv].
    unfold handleDeleteArticle. destruct mutation; [| exact Hinv].
    destruct (hasId captured articleId); simpl; [discriminate | exact Hinv].
  - unfold clickTab.
    destruct (bool_decide (value = "view")) eqn:Hv; simpl.
    + destruct (bool_decide (is_Some (selectedArticle (page st)))) eqn:Hsel; simpl.
      * intros _. now apply bool_decide_eq_true in Hsel.
      * exact Hinv.
    + intros Hview. apply bool_decide_eq_false in Hv. contradiction.
Qed.

Lemma foldl_snoc {A B : Type} (f : A -> B -> A) (a : A) (l : list B) (b : B) :
  foldl f a (l ++ [b])%list = f (foldl f a l) b.
Proof. revert a. induction l as [|x l IH]; intros a; simpl; [reflexivity | apply IH]. Qed.

(** Whatever happens on the page (generations and deletes settling in any
    order, selections and tab clicks in between), the view tab is active
    only while an article is selected. A delete that succeeds clears the
    selection when the article selected at the moment the delete was
    started has the deleted id; so a delete that is started and succeeds
    with nothing happening in between leaves an article other than the
    deleted one selected, or none. *)
Theorem view_tab_has_article (events : list event) :
  (activeTab (page (run events)) = "view" ->
   is_Some (selectedArticle (page (run events)))) /\
  (forall data articleId,
     hasId (selectedArticle
              (page (run (events
                          ++ [DeleteStarted articleId;
                              DeleteSettled (length (pendingDeletes (run events)))
                                            (Return data)])%list)))
           articleId
     = false).
Proof.
  split.
  - induction events as [|e events IH] using rev_ind.
    + discriminate.
    + unfold run in *. rewrite foldl_snoc. now apply step_keeps_view_selected.
  - intros data articleId. unfold run. rewrite foldl_app. simpl.
    fold (run events). rewrite list_lookup_middle by reflexivity. simpl.
    unfold handleDeleteArticle.
    destruct (hasId (selectedArticle (page (run events))) articleId) eqn:Hsel;
      [reflexivity | exact Hsel].
Qed.

End ClientFacts.

(* ===================================================================== *)
(** ** What the article card and the article view show                    *)
(* ===================================================================== *)

Module DisplayFacts.
Import Js JsFacts Schema Scenario Counting ArticleDisplay StringFacts
       PromptBuilderFacts.

(** *** Splitting *)

Lemma split_cons (c sep : Ascii.ascii) (rest : string) :
  split (String c rest) sep
  = if bool_decide (c = sep) then EmptyString :: split rest sep
    else match split rest sep with
         | piece :: pieces => String c piece :: pieces
         | [] => [String c EmptyString]
         end.
Proof. reflexivity. Qed.

Lemma split_length (s : string) (sep : Ascii.ascii) :
  length (split s sep) = S (occurrences sep s).
Proof.
  induction s as [|c rest IH]; [reflexivity |].
  rewrite split_cons. simpl occurrences.
  case_bool_decide; simpl; [now rewrite IH |].
  destruct (split rest sep) as [|piece pieces]; simpl in *; lia.
Qed.

Lemma split_no_separator (s : string) (sep : Ascii.ascii) :
  occurrences sep s = 0%nat -> split s sep = [s].
Proof.
  induction s as [|c rest IH]; [reflexivity |].
  rewrite split_cons. simpl occurrences.
  case_bool_decide; simpl; [discriminate |].
  intros H0. now rewrite (IH H0).
Qed.

Lemma occurrences_app (c : Ascii.ascii) (a b : string) :
  occurrences c (a +:+ b) = (occurrences c a + occurrences c b)%nat.
Proof.
  induction a as [|d rest IH]; [reflexivity |].
  rewrite append_cons. simpl occurrences. rewrite IH. lia.
Qed.

(** The number of words shown for an article is the number of space
    characters of its text plus one: an empty text counts one word, and
    every further space, also a doubled one, counts one more. *)
Theorem wordCount_counts_spaces (content : string) :
  wordCount content = S (occurrences space content) /\
  wordCount EmptyString = 1%nat /\
  forall more, wordCount (content +:+ " " +:+ more)
               = (wordCount content + wordCount more)%nat.
Proof.
  unfold wordCount. split; [apply split_length |]. split; [reflexivity |].
  intros more. rewrite !split_length, !occurrences_app.
  change (occurrences space " ") with 1%nat. lia.
Qed.

(** A card shows at most three keywords and, only when there are more,
    the number of those it leaves out; the shown ones and the left-out
    ones together are all the comma-separated pieces. *)
Theorem keyword_badges_account_for_all (keywords : string) :
  let total := S (occurrences comma keywords) in
  length (shownKeywords keywords) = Nat.min 3 total /\
  (moreKeywords keywords = None <-> (total <= 3)%nat) /\
  (length (shownKeywords keywords) + default 0%nat (moreKeywords keywords)
   = total)%nat.
Proof.
  cbv zeta. unfold shownKeywords, moreKeywords.
  rewrite length_take, split_length.
  split; [reflexivity |].
  case_bool_decide as Hmore; cbv [default from_option Datatypes.id].
  - split; [split; [discriminate | lia] | lia].
  - split; [split; [lia | reflexivity] | lia].
Qed.

(** *** The name of the downloaded file *)

Lemma fileNameChar_of_any (c : Ascii.ascii) :
  isFileNameChar
    (ArticleHistory.asciiLower (if isAlnum c then c else underscore)) = true.
Proof.
  destruct c as [[] [] [] [] [] [] [] []]; vm_compute; reflexivity.
Qed.

Lemma alnum_kept (c : Ascii.ascii) :
  isAlnum c = true ->
  ArticleHistory.asciiLower (if isAlnum c then c else underscore)
  = ArticleHistory.asciiLower c.
Proof. now intros ->. Qed.

Lemma length_append (a b : string) :
  String.length (a +:+ b) = (String.length a + String.length b)%nat.
Proof.
  induction a as [|c rest IH]; [reflexivity |].
  rewrite append_cons. simpl. now rewrite IH.
Qed.

(** The stem of the file name: the title with every character that is
    not an ASCII letter or digit replaced, in lower case. *)
Lemma downloadName_stem (title : string) :
  exists stem,
    downloadName title = stem +:+ ".txt" /\
    String.length stem = String.length title /\
    allChars isFileNameChar stem = true.
Proof.
  exists (ArticleHistory.asciiToLowerCase (replaceNonAlnum title)).
  split; [reflexivity |].
  induction title as [|c rest [Hlen Hall]]; [now split |].
  simpl. rewrite Hlen, Hall, fileNameChar_of_any. now split.
Qed.

(** Whatever the title, the downloaded file is named by as many
    characters as the title has, each a lower-case letter, a digit or an
    underscore, followed by the extension txt. *)
Theorem downloadName_is_safe (title : string) :
  exists stem,
    downloadName title = stem +:+ ".txt" /\
    String.length stem = String.length title /\
    allChars isFileNameChar stem = true /\
    String.length (downloadName title) = (String.length title + 4)%nat.
Proof.
  destruct (downloadName_stem title) as (stem & Hname & Hlen & Hall).
  exists stem. repeat split; try assumption.
  rewrite Hname, length_append, Hlen. reflexivity.
Qed.

(** *** The two tables of language names and the table of size texts *)

(** The card, the article view and the prompt name a known language
    code alike; for a code without an entry (that is not the name of an
    inherited property) the card and the view show the code itself
    while the prompt says English. *)
Theorem language_names_agree (code : string) :
  ArticleDisplay.getLanguageName code = HistoryCard.getLanguageName code /\
  (forall name,
     PromptBuilder.languageNames !! code = Some name ->
     ArticleDisplay.getLanguageName code = Val name /\
     targetLanguageOf code = name) /\
  (PromptBuilder.languageNames !! code = None ->
   code ∉ objectPrototypeKeys ->
   ArticleDisplay.getLanguageName code = Val code /\
   targetLanguageOf code = "English").
Proof.
  split; [reflexivity |]. split.
  - intros name Hname.
    apply elem_of_list_to_map_2 in Hname.
    repeat (apply elem_of_cons in Hname as [[= -> ->]|Hname]);
      [.. | exfalso; apply elem_of_nil in Hname; exact Hname];
      split; vm_compute; reflexivity.
  - intros Hnone Hproto. split.
    + unfold ArticleDisplay.getLanguageName.
      change ArticleDisplay.languages with PromptBuilder.languageNames.
      now rewrite get_undefined.
    + now apply targetLanguage_default.
Qed.

Lemma language_names_agree_witness :
  ArticleDisplay.getLanguageName "ja" = Val "Japanese" /\
  ArticleDisplay.getLanguageName "xx" = Val "xx" /\
  targetLanguageOf "xx" = "English".
Proof.
  destruct (language_names_agree "ja") as (_ & Hknown & _).
  destruct (language_names_agree "xx") as (_ & _ & Hunknown).
  split; [apply (Hknown "Japanese"); vm_compute; reflexivity |].
  apply Hunknown; [vm_compute; reflexivity | by_evaluation].
Defined.

(** The size text of the article view names the word range that the
    prompt asks for. *)
Theorem size_display_matches_prompt (size : string) (req : PromptBuilder.SizeReq) :
  PromptBuilder.sizeRequirements !! size = Some req ->
  getSizeDisplay size
  = Val (size +:+ " (" +:+ PromptBuilder.words req +:+ " words)").
Proof.
  intros Hreq. apply elem_of_list_to_map_2 in Hreq.
  repeat (apply elem_of_cons in Hreq as [[= -> ->]|Hreq]);
    [.. | exfalso; apply elem_of_nil in Hreq; exact Hreq];
    vm_compute; reflexivity.
Qed.

Lemma size_display_matches_prompt_witness :
  getSizeDisplay "Large" = Val "Large (3600-5200 words)".
Proof.
  apply (size_display_matches_prompt "Large"
           (PromptBuilder.mkSizeReq "3600-5200" "13-16")).
  vm_compute. reflexivity.
Defined.

(** *** The lines of the article text *)

Lemma allChars_rev_app (p : Ascii.ascii -> bool) (s acc : string) :
  allChars p (String.rev_app s acc) = allChars p s && allChars p acc.
Proof.
  revert acc. induction s as [|c rest IH]; intros acc; simpl; [reflexivity |].
  rewrite IH. simpl. destruct (p c), (allChars p rest); reflexivity.
Qed.

Lemma rev_app_empty (s acc : string) :
  String.rev_app s acc = EmptyString -> s = EmptyString /\ acc = EmptyString.
Proof.
  revert acc. induction s as [|c rest IH]; intros acc; simpl; [now split |].
  intros H. apply IH in H as [_ H]. discriminate.
Qed.

Lemma trimStart_empty (s : string) :
  trimStart s = EmptyString <-> allChars isSpace s = true.
Proof.
  induction s as [|c rest IH]; simpl; [split; reflexivity |].
  destruct (isSpace c); simpl; [exact IH | split; discriminate].
Qed.

(** A line is blank for [trim] exactly when all its characters are white
    space. *)
Lemma trim_empty (s : string) :
  trim s = EmptyString <-> allChars isSpace s = true.
Proof.
  unfold trim, String.rev. split.
  - intros H. apply rev_app_empty in H as [H _].
    apply trimStart_empty in H. rewrite allChars_rev_app in H.
    apply andb_true_iff in H as [H _].
    clear -H. induction s as [|c rest IH]; [reflexivity |].
    simpl in *. destruct (isSpace c) eqn:Hc; simpl in *; [now apply IH in H |].
    rewrite Hc in H. discriminate.
  - intros H. apply trimStart_empty in H as ->. reflexivity.
Qed.

Lemma trim_starts_nonspace (c : Ascii.ascii) (rest : string) :
  isSpace c = false -> bool_decide (trim (String c rest) = EmptyString) = false.
Proof.
  intros Hc. apply bool_decide_eq_false. rewrite trim_empty. simpl.
  now rewrite Hc.
Qed.

(** The marker of a heading or of a bullet is taken off and the rest of
    the line is shown as it is. *)
Theorem markdown_markers_stripped (text : string) (w : Ascii.ascii) :
  isSpace w = true ->
  formatParagraph ("# " +:+ text) = H1 text /\
  formatParagraph ("## " +:+ text) = H2 text /\
  formatParagraph ("### " +:+ text) = H3 text /\
  formatParagraph ("-" +:+ String w text) = BulletItem text /\
  formatParagraph ("*" +:+ String w text) = BulletItem text.
Proof.
  intros Hw. rewrite !append_cons, !append_nil_l.
  unfold formatParagraph.
  rewrite !trim_starts_nonspace by reflexivity.
  repeat split; try (destruct text; reflexivity).
  - cbn. rewrite Hw. reflexivity.
  - cbn. rewrite Hw. reflexivity.
Qed.

Lemma markdown_markers_stripped_witness :
  formatContent "## Brewing at home" = [H2 "Brewing at home"] /\
  formatParagraph "- grind the beans" = BulletItem "grind the beans".
Proof.
  destruct (markdown_markers_stripped "Brewing at home" space eq_refl)
    as (_ & HH2 & _).
  destruct (markdown_markers_stripped "grind the beans" space eq_refl)
    as (_ & _ & _ & Hbullet & _).
  split; [| exact Hbullet].
  change (formatContent "## Brewing at home")
    with [formatParagraph ("## " +:+ "Brewing at home")].
  now rewrite HH2.
Defined.

Lemma prefix_other_first (marker : string) (m c : Ascii.ascii) (rest : string) :
  m <> c -> String.prefix (String m marker) (String c rest) = false.
Proof.
  intros Hne.
  change (String.prefix (String m marker) (String c rest))
    with (if Ascii.ascii_dec m c then String.prefix marker rest else false).
  destruct (Ascii.ascii_dec m c); [contradiction | reflexivity].
Qed.

Lemma digit_facts (d : Ascii.ascii) :
  isDigit d = true ->
  isSpace d = false /\ d <> dot /\ d <> Ascii.ascii_of_nat 35.
Proof.
  destruct d as [[] [] [] [] [] [] [] []]; vm_compute; intros H;
    try discriminate H; repeat split; discriminate.
Qed.

Lemma skipDigits_digits (digits rest : string) :
  allChars isDigit digits = true ->
  skipDigits (digits +:+ String dot rest) = String dot rest.
Proof.
  induction digits as [|d ds IH]; [reflexivity |].
  simpl allChars. intros [Hd Hds]%andb_true_iff.
  rewrite append_cons. simpl. now rewrite Hd, IH.
Qed.

Lemma indexOf_digits (digits rest : string) :
  allChars isDigit digits = true ->
  indexOf (digits +:+ String dot rest) dot = Z.of_nat (String.length digits).
Proof.
  induction digits as [|d ds IH].
  - intros _. reflexivity.
  - simpl allChars. intros [Hd Hds]%andb_true_iff.
    rewrite append_cons. simpl indexOf.
    destruct (digit_facts d Hd) as (_ & Hdot & _).
    rewrite bool_decide_eq_false_2 by assumption.
    rewrite (IH Hds). rewrite bool_decide_eq_false_2 by lia.
    simpl String.length. lia.
Qed.

Lemma substringFrom_append (a b : string) :
  substringFrom (String.length a) (a +:+ b) = b.
Proof.
  induction a as [|c rest IH]; [now destruct b |].
  rewrite append_cons. simpl. exact IH.
Qed.

(** A numbered item (digits, a dot, one white space) is shown without
    its number, however many digits the number has. *)
Theorem numbered_item_text (digits text : string) (w : Ascii.ascii) :
  digits <> EmptyString -> allChars isDigit digits = true -> isSpace w = true ->
  formatParagraph (digits +:+ "." +:+ String w text) = NumberedItem text.
Proof.
  intros Hne Hdigits Hw.
  change ("." +:+ String w text) with (String dot (String w text)).
  assert (substringFrom
            (Z.to_nat (indexOf (digits +:+ String dot (String w text)) dot + 2))
            (digits +:+ String dot (String w text)) = text) as Htext.
  { rewrite (indexOf_digits _ _ Hdigits).
    replace (Z.to_nat (Z.of_nat (String.length digits) + 2))
      with (String.length (digits +:+ String dot (String w EmptyString))).
    - change (String dot (String w text))
        with (String dot (String w EmptyString) +:+ text).
      rewrite <- append_assoc. apply substringFrom_append.
    - rewrite length_append. simpl. lia. }
  destruct digits as [|d ds]; [contradiction |].
  simpl allChars in Hdigits. apply andb_true_iff in Hdigits as [Hd Hds].
  destruct (digit_facts d Hd) as (Hnospace & _ & Hhash).
  rewrite append_cons in *. unfold formatParagraph.
  rewrite (trim_starts_nonspace _ _ Hnospace).
  assert (forall marker,
            String.prefix (String (Ascii.ascii_of_nat 35) marker)
              (String d (ds +:+ String dot (String w text))) = false) as Hprefix.
  { intros marker. apply prefix_other_first. congruence. }
  change "# " with (String (Ascii.ascii_of_nat 35) " ").
  change "## " with (String (Ascii.ascii_of_nat 35) "# ").
  change "### " with (String (Ascii.ascii_of_nat 35) "## ").
  rewrite !Hprefix.
  unfold matchesNumbered. rewrite Hd, (skipDigits_digits _ _ Hds).
  rewrite bool_decide_eq_true_2 by reflexivity. rewrite Hw. simpl andb. cbv iota.
  now rewrite Htext.
Qed.

Lemma numbered_item_text_witness :
  formatParagraph "12. Rinse the filter" = NumberedItem "Rinse the filter".
Proof.
  apply (numbered_item_text "12" "Rinse the filter" space);
    [discriminate | reflexivity | reflexivity].
Defined.

(** The article text is rendered line by line, one element for each
    line; a line comes out as nothing exactly when all its characters
    are white space. *)
Theorem formatContent_line_by_line (content : string) :
  length (formatContent content) = S (occurrences lineFeed content) /\
  (occurrences lineFeed content = 0%nat ->
   formatContent content = [formatParagraph content]) /\
  (forall line, formatParagraph line = Null <-> allChars isSpace line = true).
Proof.
  unfold formatContent. split; [now rewrite List.length_map, split_length |].
  split; [intros H0; now rewrite (split_no_separator _ _ H0) |].
  intros line. rewrite <- trim_empty. unfold formatParagraph.
  case_bool_decide as Htrim; [tauto |].
  split; [| contradiction].
  repeat (case_match; try discriminate).
Qed.

Lemma formatContent_line_by_line_witness :
  formatContent "Coffee" = [Paragraph "Coffee"].
Proof.
  destruct (formatContent_line_by_line "Coffee") as (_ & Hone & _).
  now rewrite Hone.
Defined.

End DisplayFacts.

(* ===================================================================== *)
(** ** The history list in its initial state and by date                  *)
(* ===================================================================== *)

Module HistoryMore.
Import Js JsFacts Schema ArticleHistory Scenario StringFacts
       ArticleHistoryFacts ArticleRoutesMore.

Lemma includes_empty (s : string) : includes s EmptyString = true.
Proof. apply includes_spec. exists EmptyString, s. reflexivity. Qed.

Lemma filter_all {A : Type} (f : A -> bool) (l : list A) :
  (forall x, f x = true) -> List.filter f l = l.
Proof.
  intros Hall. induction l as [|x l IH]; simpl; [reflexivity |].
  now rewrite Hall, IH.
Qed.

(** With the search box empty and the type filter on all, as the
    component starts, no article is filtered out, whatever the sort. *)
Theorem initial_filter_keeps_all
        (toLowerCase : string -> string) (localeCompare : string -> string -> Z)
        (sortField : SortField) (sortOrder : SortOrder) (articles : list Article) :
  toLowerCase EmptyString = EmptyString ->
  filteredArticles toLowerCase localeCompare EmptyString "all"
                   sortField sortOrder articles
  ≡ₚ articles.
Proof.
  intros Hlower. unfold filteredArticles. rewrite sort_perm.
  rewrite filter_all; [reflexivity |].
  intros a. unfold keeps, matchesSearch, matchesType.
  rewrite Hlower, includes_empty. reflexivity.
Qed.

Lemma initial_filter_keeps_all_witness :
  filteredArticles asciiToLowerCase (fun _ _ => 0) EmptyString "all"
                   ByCreatedAt Desc
                   [sized "a" "Large"; sized "b" "X-Small"]
  ≡ₚ [sized "a" "Large"; sized "b" "X-Small"].
Proof.
  apply (initial_filter_keeps_all asciiToLowerCase (fun _ _ => 0)
                                  ByCreatedAt Desc).
  reflexivity.
Defined.

Lemma comparefn_date_asc (localeCompare : string -> string -> Z) (a b : Article) :
  (fun _ : Article => True) a -> (fun _ : Article => True) b ->
  comparefn localeCompare ByCreatedAt Asc a b = Some (createdAt a - createdAt b).
Proof. reflexivity. Qed.

Lemma comparefn_date_desc (localeCompare : string -> string -> Z) (a b : Article) :
  (fun _ : Article => True) a -> (fun _ : Article => True) b ->
  comparefn localeCompare ByCreatedAt Desc a b
  = Some (- createdAt a - - createdAt b).
Proof.
  intros _ _. unfold comparefn, comparison. simpl. f_equal. lia.
Qed.

(** Sorted by date, the shown articles are in order of their creation
    time: oldest first when ascending, newest first when descending (the
    initial order), for every search and type filter. *)
Theorem date_sort_orders_by_time
        (toLowerCase : string -> string) (localeCompare : string -> string -> Z)
        (searchTerm filterType : string) (articles : list Article) :
  StronglySorted (fun a b => createdAt a <= createdAt b)
    (filteredArticles toLowerCase localeCompare searchTerm filterType
                      ByCreatedAt Asc articles) /\
  StronglySorted (fun a b => createdAt b <= createdAt a)
    (filteredArticles toLowerCase localeCompare searchTerm filterType
                      ByCreatedAt Desc articles).
Proof.
  unfold filteredArticles. split.
  - apply (sort_sorted _ createdAt (fun _ => True)
                       (comparefn_date_asc localeCompare)).
    apply Forall_forall. intros; exact I.
  - apply (StronglySorted_weaken (fun a b => - createdAt a <= - createdAt b)).
    + intros a b Hab. lia.
    + apply (sort_sorted _ (fun a => - createdAt a) (fun _ => True)
                         (comparefn_date_desc localeCompare)).
      apply Forall_forall. intros; exact I.
Qed.

End HistoryMore.

(* ===================================================================== *)
(** ** The prompt of a validated request                                  *)
(* ===================================================================== *)

Module PromptMore.
Import Js JsFacts Schema PromptBuilder GenerateRoute Scenario Closing
       StringFacts PromptBuilderFacts GenerateRouteMore.

Lemma footer_ends (targetLanguage : string) (sizeReq : jsval SizeReq) :
  exists start, footer targetLanguage sizeReq = start +:+ closingInstruction.
Proof.
  unfold footer. rewrite <- !append_assoc. eexists. reflexivity.
Qed.

(** Every prompt that is returned quotes the title and the keywords of
    the request as they are (the keywords twice) and ends with the fixed
    closing instruction. *)
Theorem prompt_quotes_request (d : PromptData) :
  articleSize (pSettings d) ∈ articleSizes ->
  exists pre mid rest,
    buildArticlePrompt d
    = Return (pre +:+ "TITLE: " +:+ pTitle d +:+ nl
                +:+ "KEYWORDS: " +:+ pKeywords d +:+ nl
                +:+ mid +:+ "- Main Keywords: " +:+ pKeywords d
                +:+ rest +:+ closingInstruction).
Proof.
  intros [r Hr]%size_has_requirements.
  rewrite (build_defined d _ Hr).
  destruct (footer_ends (targetLanguageOf (language (pSettings d))) (Val r))
    as [start ->].
  unfold beforeStructure, header.
  exists ("You are an expert SEO content writer. Write a comprehensive, SEO-optimized article in "
            +:+ targetLanguageOf (language (pSettings d))
            +:+ " based on the following specifications:" +:+ nl +:+ nl),
    (nl +:+ "ARTICLE REQUIREMENTS:" +:+ nl
        +:+ "- Target Language: " +:+ targetLanguageOf (language (pSettings d)) +:+ nl
        +:+ "- Word Count: " +:+ field words (Val r) +:+ " words" +:+ nl
        +:+ "- H2 Headings: " +:+ field h2 (Val r) +:+ " sections" +:+ nl),
    (articleTypeClause (articleType (pSettings d))
       +:+ toneClause (tone (pSettings d))
       +:+ pointOfViewClause (pointOfView (pSettings d))
       +:+ readabilityClause (readability (pSettings d))
       +:+ aiCleaningClause (aiCleaning (pSettings d))
       +:+ structureHeader +:+ includeLine (structure (pSettings d)) +:+ start).
  f_equal. rewrite !append_assoc. reflexivity.
Qed.

Lemma prompt_quotes_request_witness :
  exists pre mid rest,
    buildArticlePrompt (coffee "None" "None" "No AI Words Removal")
    = Return (pre +:+ "TITLE: Best Coffee" +:+ nl
                +:+ "KEYWORDS: coffee,brew" +:+ nl
                +:+ mid +:+ "- Main Keywords: coffee,brew"
                +:+ rest +:+ closingInstruction).
Proof.
  destruct (prompt_quotes_request (coffee "None" "None" "No AI Words Removal"))
    as (pre & mid & rest & H); [by_evaluation |].
  exists pre, mid, rest. rewrite H. f_equal.
Defined.

(** For a value that the schema allows and that is not the neutral one,
    each of the four stylistic tables has an entry, so the clause of a
    validated request carries the table's instruction and never the raw
    value. *)
Theorem allowed_values_have_instructions (s : ArticleSettings) :
  (tone s ∈ tones -> tone s <> "None" ->
   exists text, toneInstructions !! tone s = Some text /\
                toneClause (tone s) = nl +:+ "- Tone: " +:+ text) /\
  (pointOfView s ∈ pointsOfView -> pointOfView s <> "None" ->
   exists text, povInstructions !! pointOfView s = Some text /\
                pointOfViewClause (pointOfView s)
                = nl +:+ "- Point of View: " +:+ text) /\
  (readability s ∈ readabilities -> readability s <> "None" ->
   exists text, readabilityInstructions !! readability s = Some text /\
                readabilityClause (readability s)
                = nl +:+ "- Readability Level: " +:+ text) /\
  (aiCleaning s ∈ aiCleanings -> aiCleaning s <> "No AI Words Removal" ->
   exists text, cleaningInstructions !! aiCleaning s = Some text /\
                aiCleaningClause (aiCleaning s)
                = nl +:+ "- Content Style: " +:+ text).
Proof.
  repeat split.
  - generalize (tone s). intros v Hin Hne. unfold tones in Hin.
    each_member Hin; try contradiction; eexists; split; vm_compute; reflexivity.
  - generalize (pointOfView s). intros v Hin Hne. unfold pointsOfView in Hin.
    each_member Hin; try contradiction; eexists; split; vm_compute; reflexivity.
  - generalize (readability s). intros v Hin Hne. unfold readabilities in Hin.
    each_member Hin; try contradiction; eexists; split; vm_compute; reflexivity.
  - generalize (aiCleaning s). intros v Hin Hne. unfold aiCleanings in Hin.
    each_member Hin; try contradiction; eexists; split; vm_compute; reflexivity.
Qed.

Lemma allowed_values_have_instructions_witness :
  exists text,
    toneInstructions !! "Witty" = Some text /\
    toneClause "Witty" = nl +:+ "- Tone: " +:+ text.
Proof.
  apply (allowed_values_have_instructions
           (mkSettings "None" "Small" "Witty" "None" "None"
                       "No AI Words Removal" noStructure "en"));
    [by_evaluation | discriminate].
Defined.

End PromptMore.
